(** * Session lifecycle of [src/hooks/useAuth.tsx]

    A shallow embedding of the [AuthProvider] hook: the sign-in and sign-out
    operations, the header synchronisation effect and the start-up restore
    effect, followed by the properties of the session lifecycle.

    The hook talks to four outside parties: the authorization session
    ([startAsync], [revokeAsync]), the HTTP client ([api.get], [axios.get]),
    the key/value store ([AsyncStorage]) and the JSON codec.  Each awaited
    call may resolve or reject; what it answers is read from an environment
    record, so that every theorem quantifies over all answers.

    Each operation is followed from its call to the point where its promise
    settles, with the states the rest of the application can observe at
    every [await] in between.  Two operations in flight at once are not
    interleaved. *)

From Stdlib Require Import ZArith NArith String Ascii List Bool Lia.
From stdpp Require Import base option list strings pretty gmap fin_maps.

Local Open Scope string_scope.
Set Warnings "-register-all".

(* ===================================================================== *)
(** ** JavaScript values, errors and [encodeURI] *)
(* ===================================================================== *)

Module JS.

(** Values that travel through the hook: response bodies, the user record,
    results of [JSON.parse].  Objects keep their fields in order. *)
Inductive jsval : Type :=
| JUndefined
| JNull
| JBool (b : bool)
| JNum (n : Z)          (* compared with [===] only; JSON has no NaN *)
| JStr (s : string)
| JArr (items : list jsval)
| JObj (fields : list (string * jsval)).

(** An [Error] object: the two properties [String(e)] reads. *)
Record exn : Type := MkExn { name : string; message : string }.

(** [Error.prototype.toString]. *)
Definition toString (e : exn) : string :=
  if String.eqb (name e) "" then message e
  else if String.eqb (message e) "" then name e
  else name e +:+ ": " +:+ message e.

(** [new Error(msg)] for a string [msg]. *)
Definition new_Error (msg : string) : exn :=
  {| name := "Error"; message := msg |}.

(** [new Error(e as any)]: the constructor converts its argument with
    [String(e)]; the original object is not kept. *)
Definition new_Error_of (e : exn) : exn := new_Error (toString e).

(** Truthiness of a string. *)
Definition truthy_string (s : string) : bool := negb (String.eqb s "").

Fixpoint assoc (k : string) (fields : list (string * jsval)) : jsval :=
  match fields with
  | [] => JUndefined
  | (k', v) :: rest => if String.eqb k k' then v else assoc k rest
  end.

(** [v.k] for a property [k] that is no built-in of strings, numbers,
    booleans or arrays ([data], [login]).  [None] is the [TypeError] of
    reading a property of [undefined] or [null]. *)
Definition get_prop (v : jsval) (k : string) : option jsval :=
  match v with
  | JUndefined | JNull => None
  | JObj fields => Some (assoc k fields)
  | _ => Some JUndefined
  end.

(** [v?.k]. *)
Definition get_prop_opt (v : jsval) (k : string) : jsval :=
  match get_prop v k with
  | Some x => x
  | None => JUndefined
  end.

(** [v[0]]. *)
Definition index0 (v : jsval) : option jsval :=
  match v with
  | JUndefined | JNull => None
  | JArr items => Some (hd JUndefined items)
  | JStr (String c _) => Some (JStr (String c EmptyString))
  | JObj fields => Some (assoc "0" fields)
  | _ => Some JUndefined
  end.

(** [a === b] for two values that come from two different response bodies:
    primitives compare by value, objects and arrays by identity, and two
    bodies never share an object. *)
Definition strict_eq (a b : jsval) : bool :=
  match a, b with
  | JUndefined, JUndefined => true
  | JNull, JNull => true
  | JBool x, JBool y => Bool.eqb x y
  | JNum x, JNum y => Z.eqb x y
  | JStr x, JStr y => String.eqb x y
  | _, _ => false
  end.

(** The empty object literal. *)
Definition empty_object : jsval := JObj [].

(** *** [encodeURI] on the bytes of a UTF-8 string *)

Definition in_range (lo hi c : ascii) : bool :=
  (N.leb (N_of_ascii lo) (N_of_ascii c)) && (N.leb (N_of_ascii c) (N_of_ascii hi)).

(** Characters [encodeURI] leaves alone: letters, digits, the marks
    [- _ . ! ~ * ' ( )], the reserved [; / ? : @ & = + $ ,] and [#]. *)
Definition uri_unescaped (c : ascii) : bool :=
  in_range "a" "z" c || in_range "A" "Z" c || in_range "0" "9" c
  || existsb (Ascii.eqb c)
       ["-"; "_"; "."; "!"; "~"; "*"; "'"; "("; ")";
        ";"; "/"; "?"; ":"; "@"; "&"; "="; "+"; "$"; ","; "#"]%char.

Definition hex_digit (n : N) : ascii :=
  if N.ltb n 10 then ascii_of_N (48 + n) else ascii_of_N (55 + n).

Definition percent (c : ascii) : string :=
  let n := N_of_ascii c in
  String "%" (String (hex_digit (N.div n 16)) (String (hex_digit (N.modulo n 16)) EmptyString)).

Fixpoint encodeURI (s : string) : string :=
  match s with
  | EmptyString => EmptyString
  | String c rest =>
      if uri_unescaped c then String c (encodeURI rest)
      else percent c +:+ encodeURI rest
  end.

(** [Array.prototype.join]. *)
Fixpoint join (sep : string) (l : list string) : string :=
  match l with
  | [] => ""
  | [x] => x
  | x :: rest => x +:+ sep +:+ join sep rest
  end.

(** Template-literal rendering of a boolean. *)
Definition bool_to_string (b : bool) : string := if b then "true" else "false".

End JS.

(* ===================================================================== *)
(** ** Asynchronous computations *)
(* ===================================================================== *)

Module Async.

Section Monad.
Context {St Ev : Type}.

(** How a promise settles. *)
Inductive outcome (A : Type) : Type :=
| Resolved (a : A)
| Rejected (e : JS.exn).

(** A computation runs from a state; it yields the list of its suspension
    points (the call awaited and the state the rest of the application can
    observe while it is pending), how it settles, and the state then. *)
Definition async (A : Type) : Type := St → list (Ev * St) * outcome A * St.

Definition ret {A} (a : A) : async A := λ s, ([], Resolved A a, s).

Definition throw {A} (e : JS.exn) : async A := λ s, ([], Rejected A e, s).

Definition bind {A B} (m : async A) (k : A → async B) : async B :=
  λ s, match m s with
       | (t, Resolved _ a, s1) =>
           match k a s1 with
           | (t', r, s2) => ((t ++ t')%list, r, s2)
           end
       | (t, Rejected _ e, s1) => (t, Rejected B e, s1)
       end.

(** [try { m } catch (e) { h e }]. *)
Definition try_catch {A} (m : async A) (h : JS.exn → async A) : async A :=
  λ s, match m s with
       | (t, Resolved _ a, s1) => (t, Resolved A a, s1)
       | (t, Rejected _ e, s1) =>
           match h e s1 with
           | (t', r, s2) => ((t ++ t')%list, r, s2)
           end
       end.

(** [try { m } finally { f }]: [f] always runs; when it rejects, its error
    replaces the way [m] settled. *)
Definition try_finally {A} (m : async A) (f : async unit) : async A :=
  λ s, match m s with
       | (t, r, s1) =>
           match f s1 with
           | (t', Resolved _ _, s2) => ((t ++ t')%list, r, s2)
           | (t', Rejected _ e, s2) => ((t ++ t')%list, Rejected A e, s2)
           end
       end.

Definition gets {A} (f : St → A) : async A := λ s, ([], Resolved A (f s), s).

Definition modify (f : St → St) : async unit := λ s, ([], Resolved unit tt, f s).

(** [await] of an outside call [c] that settles as [r] and, on success,
    leaves the state [upd s]. *)
Definition await {A} (c : Ev) (r : outcome A) (upd : St → St) : async A :=
  λ s, ([(c, s)], r, match r with Resolved _ _ => upd s | Rejected _ _ => s end).

(** The three parts of a run. *)
Definition points {A} (x : list (Ev * St) * outcome A * St) : list (Ev * St) := x.1.1.
Definition settled {A} (x : list (Ev * St) * outcome A * St) : outcome A := x.1.2.
Definition final {A} (x : list (Ev * St) * outcome A * St) : St := x.2.

(** [wp m I Q s]: in the run of [m] from [s], every suspension point (the
    call awaited and the state observable meanwhile) is in [I], and [m]
    settles with an outcome and a state related by [Q].  Runs are total
    functions, so [m] always settles. *)
Definition wp {A} (m : async A) (I : Ev → St → Prop) (Q : outcome A → St → Prop)
    (s : St) : Prop :=
  Forall (λ p, I p.1 p.2) (points (m s)) ∧ Q (settled (m s)) (final (m s)).

(** [spec m P I Q]: [wp m I Q] from every state in [P]. *)
Definition spec {A} (m : async A) (P : St → Prop) (I : Ev → St → Prop)
    (Q : outcome A → St → Prop) : Prop :=
  ∀ s, P s → wp m I Q s.

(** [keeps J m]: [m] maintains [J] at every suspension point and at the end. *)
Definition keeps {A} (J : St → Prop) (m : async A) : Prop :=
  spec m J (λ _, J) (λ _, J).

End Monad.

Arguments outcome : clear implicits.
Arguments Resolved {A} a.
Arguments Rejected {A} e.
Arguments async : clear implicits.

End Async.

(** The computations form a monad; stdpp's [x ← m; k] and [m;; k] notations
    sequence them. *)
#[global] Instance async_ret {St Ev} : MRet (Async.async St Ev) :=
  λ A, Async.ret.
#[global] Instance async_bind {St Ev} : MBind (Async.async St Ev) :=
  λ A B k m, Async.bind m k.

(* ===================================================================== *)
(** ** The hook *)
(* ===================================================================== *)

Module useAuth.

Import JS Async.

(** [StartAsyncResponse.params]. *)
Record Params : Type := MkParams {
  access_token : string;
  scope : string;
  state : string;
  token_type : string;
}.

(** [StartAsyncResponse]; its [authentication] and [errorCode] fields have
    the type [null] and are never read. *)
Record StartAsyncResponse : Type := MkResponse {
  params : Params;
  type : string;
  url : string;
}.

(** [twitchEndpoints]. *)
Module twitchEndpoints.
Definition authorization : string := "https://id.twitch.tv/oauth2/authorize".
Definition revocation : string := "https://id.twitch.tv/oauth2/revoke".
End twitchEndpoints.

(** [KEYS]. *)
Module KEYS.
Definition TOKEN : string := "@twitch:token".
Definition USER : string := "@twitch:user".
End KEYS.

(** The calls the hook awaits, with the arguments it passes. *)
Inductive call : Type :=
| StartAsync (authUrl : string)
| ApiGet (path clientId authorization : string)
| AxiosGet (url authorization : string)
| RevokeAsync (token clientId revocationEndpoint : string)
| GetItem (key : string)
| SetItem (key : string) (value : option string)
| RemoveItem (key : string).

(** Everything the hook observes: the four [useState] cells, the common
    default headers of the shared HTTP client, and the key/value store. *)
Record world : Type := MkWorld {
  isLoggingOut : bool;
  isLoggingIn : bool;
  user : jsval;
  userToken : string;
  headers : gmap string string;
  storage : gmap string string;
}.

(** The first render: [useState(false)], [useState(false)],
    [useState({} as User)], [useState("")]. *)
Definition initial (h st : gmap string string) : world :=
  {| isLoggingOut := false; isLoggingIn := false; user := empty_object;
     userToken := ""; headers := h; storage := st |}.

(** The outside world.  Network calls answer as functions of what is sent;
    a store call rejects exactly when [storage_fault] names an error for it,
    and then leaves the store as it was. *)
Record env : Type := MkEnv {
  CLIENT_ID : string;
  makeRedirectUri : string;
  generateRandom : nat → string;
  startAsync : string → outcome StartAsyncResponse;
  api_get : string → string → string → outcome jsval;
  axios_get : string → string → outcome jsval;
  revokeAsync : string → string → string → outcome bool;
  storage_fault : call → option exn;
  invalid_value : exn;
  JSON_parse : string → exn + jsval;
  JSON_serialize : jsval → string;
  TypeError : exn;
}.

Abbreviation M := (async world call).

Section Hook.
Variable E : env.

(** *** State setters *)

Definition put_isLoggingOut (b : bool) (w : world) : world :=
  {| isLoggingOut := b; isLoggingIn := isLoggingIn w; user := user w;
     userToken := userToken w; headers := headers w; storage := storage w |}.

Definition put_isLoggingIn (b : bool) (w : world) : world :=
  {| isLoggingOut := isLoggingOut w; isLoggingIn := b; user := user w;
     userToken := userToken w; headers := headers w; storage := storage w |}.

Definition put_user (u : jsval) (w : world) : world :=
  {| isLoggingOut := isLoggingOut w; isLoggingIn := isLoggingIn w; user := u;
     userToken := userToken w; headers := headers w; storage := storage w |}.

Definition with_headers (f : gmap string string → gmap string string) (w : world) : world :=
  {| isLoggingOut := isLoggingOut w; isLoggingIn := isLoggingIn w; user := user w;
     userToken := userToken w; headers := f (headers w); storage := storage w |}.

Definition with_storage (f : gmap string string → gmap string string) (w : world) : world :=
  {| isLoggingOut := isLoggingOut w; isLoggingIn := isLoggingIn w; user := user w;
     userToken := userToken w; headers := headers w; storage := f (storage w) |}.

(** The effect with dependency [[userToken]] (lines 187-197): it always sets
    [Client-Id] and sets [Authorization] when the token is not empty. *)
Definition header_sync (w : world) : world :=
  let w1 := with_headers (insert "Client-Id" (CLIENT_ID E)) w in
  if truthy_string (userToken w)
  then with_headers (insert "Authorization" ("Bearer " +:+ userToken w)) w1
  else w1.

(** A new token re-renders and the effect runs on it; the same value
    changes nothing.  The effect is applied at the update: it reads nothing
    but the new token, and the statements that follow an update up to the
    next suspension either write the same [Authorization] value (sign-in) or
    delete a header the effect does not write for an empty token
    (sign-out). *)
Definition put_userToken (t : string) (w : world) : world :=
  if String.eqb (userToken w) t then w
  else header_sync {| isLoggingOut := isLoggingOut w; isLoggingIn := isLoggingIn w;
                      user := user w; userToken := t;
                      headers := headers w; storage := storage w |}.

Definition setIsLoggingOut (b : bool) : M unit := modify (put_isLoggingOut b).
Definition setIsLoggingIn (b : bool) : M unit := modify (put_isLoggingIn b).
Definition setUser (u : jsval) : M unit := modify (put_user u).
Definition setUserToken (t : string) : M unit := modify (put_userToken t).

(** *** The shared HTTP client's default headers *)

Definition set_header (k v : string) : M unit := modify (with_headers (insert k v)).

Definition delete_header (k : string) : M unit := modify (with_headers (delete k)).

(** *** [AsyncStorage] *)

Definition settle {A} (c : call) (a : A) : outcome A :=
  match storage_fault E c with
  | Some e => Rejected e
  | None => Resolved a
  end.

Definition AsyncStorage_getItem (k : string) : M (option string) :=
  λ w, await (GetItem k) (settle (GetItem k) (storage w !! k)) id w.

(** A value that is not a string ([JSON.stringify(undefined)]) is refused. *)
Definition AsyncStorage_setItem (k : string) (v : option string) : M unit :=
  match v with
  | Some s => await (SetItem k v) (settle (SetItem k v) tt) (with_storage (insert k s))
  | None => await (SetItem k v) (Rejected (invalid_value E)) id
  end.

Definition AsyncStorage_removeItem (k : string) : M unit :=
  await (RemoveItem k) (settle (RemoveItem k) tt) (with_storage (delete k)).

(** *** JSON *)

(** [JSON.stringify]: [undefined] for [undefined], text otherwise. *)
Definition JSON_stringify (v : jsval) : option string :=
  match v with
  | JUndefined => None
  | _ => Some (JSON_serialize E v)
  end.

(** A call that returns a value or throws. *)
Definition lift {A} (x : exn + A) : M A :=
  match x with
  | inl e => throw e
  | inr a => ret a
  end.

(** A property read that throws on [undefined] and [null]. *)
Definition read {A} (o : option A) : M A :=
  match o with
  | Some a => ret a
  | None => throw (TypeError E)
  end.

(** *** [signIn] (lines 68-153)

    The [console.log] of the [else] branch writes nothing the hook reads
    and is left out. *)

Definition authUrl : string :=
  let REDIRECT_URI := makeRedirectUri E in
  let RESPONSE_TYPE := "token" in
  let SCOPE := encodeURI (join " " ["openid"; "user:read:email"; "user:read:follows"]) in
  let FORCE_VERIFY := true in
  let STATE := generateRandom E 30 in
  twitchEndpoints.authorization +:+ "?client_id=" +:+ CLIENT_ID E
    +:+ "&redirect_uri=" +:+ REDIRECT_URI
    +:+ "&response_type=" +:+ RESPONSE_TYPE
    +:+ "&scope=" +:+ SCOPE
    +:+ "&force_verify=" +:+ bool_to_string FORCE_VERIFY
    +:+ "&state=" +:+ STATE.

Definition signIn : M unit :=
  try_finally
    (try_catch
       (setIsLoggingIn true;;
        response ← await (StartAsync authUrl) (startAsync E authUrl) id;
        if String.eqb (type response) "success" then
          let bearer := "Bearer " +:+ access_token (params response) in
          set_header "Authorization" bearer;;
          try_catch
            (data ← await (ApiGet "/users" (CLIENT_ID E) bearer)
                          (api_get E "/users" (CLIENT_ID E) bearer) id;
             rows ← read (get_prop data "data");
             first ← read (index0 rows);
             setUser first;;
             setUserToken (access_token (params response));;
             AsyncStorage_setItem KEYS.TOKEN (Some (access_token (params response)));;
             AsyncStorage_setItem KEYS.USER (JSON_stringify first))
            (λ e, throw (new_Error_of e))
        else
          throw (new_Error "Access denied"))
       (λ error, throw (new_Error_of error)))
    (setIsLoggingIn false).

(** *** [signOut] (lines 155-185) *)

Definition signOut : M unit :=
  try_finally
    (try_catch
       (setIsLoggingOut true;;
        token ← gets userToken;
        await (RevokeAsync token (CLIENT_ID E) twitchEndpoints.revocation)
              (revokeAsync E token (CLIENT_ID E) twitchEndpoints.revocation) id;;
        ret tt)
       (λ _, ret tt))
    (setUser empty_object;;
     setUserToken "";;
     delete_header "Authorization";;
     AsyncStorage_removeItem KEYS.TOKEN;;
     AsyncStorage_removeItem KEYS.USER;;
     setIsLoggingOut false).

(** *** Start-up restore (lines 199-234) *)

Definition validate_url : string := "https://id.twitch.tv/oauth2/validate".

(** [storagedUser ? JSON.parse(storagedUser) : null]. *)
Definition userLogged_of (storagedUser : option string) : exn + jsval :=
  match storagedUser with
  | Some s => if truthy_string s then JSON_parse E s else inr JNull
  | None => inr JNull
  end.

Definition restore : M unit :=
  storagedToken ← AsyncStorage_getItem KEYS.TOKEN;
  storagedUser ← AsyncStorage_getItem KEYS.USER;
  userLogged ← lift (userLogged_of storagedUser);
  match storagedToken with
  | Some t =>
      if truthy_string t then
        setIsLoggingIn true;;
        try_finally
          (try_catch
             (data ← await (AxiosGet validate_url ("OAuth " +:+ t))
                           (axios_get E validate_url ("OAuth " +:+ t)) id;
              login ← read (get_prop data "login");
              if strict_eq login (get_prop_opt userLogged "login") then
                setUserToken t;;
                setUser userLogged
              else ret tt)
             (λ _,
                setUserToken "";;
                setUser empty_object;;
                AsyncStorage_removeItem KEYS.TOKEN;;
                AsyncStorage_removeItem KEYS.USER))
          (setIsLoggingIn false)
      else ret tt
  | None => ret tt
  end.

(** Mounting the provider runs both effects in order. *)
Definition mount : M unit := modify header_sync;; restore.

End Hook.

(** *** Vocabulary of the properties *)

(** A user is present when the cell holds an object with at least one
    field; [{}], [undefined] and [null] are no user. *)
Definition user_present (u : jsval) : bool :=
  match u with
  | JObj (_ :: _) => true
  | _ => false
  end.

(** User and token are both present or both absent. *)
Definition paired (w : world) : Prop :=
  user_present (user w) = truthy_string (userToken w).

(** The in-flight flags as properties of the world. *)
Definition logging_in (w : world) : Prop := isLoggingIn w = true.
Definition logging_out (w : world) : Prop := isLoggingOut w = true.

(** A property that header writes and store calls leave alone. *)
Record framed (J : world → Prop) : Prop := {
  fr_headers : ∀ f w, J w → J (with_headers f w);
  fr_storage : ∀ f w, J w → J (with_storage f w);
}.

Definition is_SetItem (c : call) : bool :=
  match c with SetItem _ _ => true | _ => false end.

Definition is_StartAsync (c : call) : bool :=
  match c with StartAsync _ => true | _ => false end.

Definition is_AxiosGet (c : call) : bool :=
  match c with AxiosGet _ _ => true | _ => false end.

(** The two writes of [signIn] and the two removals of [signOut] and
    [restore] go through. *)
Definition writes_succeed (E : env) (token : string) (u : jsval) : Prop :=
  storage_fault E (SetItem KEYS.TOKEN (Some token)) = None
  ∧ storage_fault E (SetItem KEYS.USER (JSON_stringify E u)) = None.

Definition removals_succeed (E : env) : Prop :=
  storage_fault E (RemoveItem KEYS.TOKEN) = None
  ∧ storage_fault E (RemoveItem KEYS.USER) = None.

Definition reads_succeed (E : env) : Prop :=
  storage_fault E (GetItem KEYS.TOKEN) = None
  ∧ storage_fault E (GetItem KEYS.USER) = None.

(** The servers answer in the shapes of their interfaces: a successful
    authorization carries a non-empty access token, a profile body has a
    record with fields at [data[0]], and a validation body has a string
    [login]. *)
Record well_formed (E : env) : Prop := {
  wf_token : ∀ u r, startAsync E u = Resolved r → type r = "success" →
             access_token (params r) ≠ "";
  wf_profile : ∀ p c a data, api_get E p c a = Resolved data →
               ∃ rows first, get_prop data "data" = Some rows
                             ∧ index0 rows = Some first
                             ∧ user_present first = true;
  wf_login : ∀ u a data, axios_get E u a = Resolved data →
             ∃ l, get_prop data "login" = Some (JStr l);
}.

(** The response [r] with its [state] parameter replaced. *)
Definition with_state (st : string) (r : StartAsyncResponse) : StartAsyncResponse :=
  {| params := {| access_token := access_token (params r); scope := scope (params r);
                  state := st; token_type := token_type (params r) |};
     type := type r; url := url r |}.

(** The environment [E] in which the authorization flow answers [r]. *)
Definition answering (E : env) (r : outcome StartAsyncResponse) : env :=
  {| CLIENT_ID := CLIENT_ID E; makeRedirectUri := makeRedirectUri E;
     generateRandom := generateRandom E; startAsync := λ _, r;
     api_get := api_get E; axios_get := axios_get E; revokeAsync := revokeAsync E;
     storage_fault := storage_fault E; invalid_value := invalid_value E;
     JSON_parse := JSON_parse E; JSON_serialize := JSON_serialize E;
     TypeError := TypeError E |}.

(** The environment [E] in which the revocation endpoint answers [r]. *)
Definition revoking (E : env) (r : outcome bool) : env :=
  {| CLIENT_ID := CLIENT_ID E; makeRedirectUri := makeRedirectUri E;
     generateRandom := generateRandom E; startAsync := startAsync E;
     api_get := api_get E; axios_get := axios_get E; revokeAsync := λ _ _ _, r;
     storage_fault := storage_fault E; invalid_value := invalid_value E;
     JSON_parse := JSON_parse E; JSON_serialize := JSON_serialize E;
     TypeError := TypeError E |}.

Definition is_GetItem (c : call) : bool :=
  match c with GetItem _ => true | _ => false end.

Definition is_RemoveItem (c : call) : bool :=
  match c with RemoveItem _ => true | _ => false end.

(** [if (storagedToken)]: the read found a token that is not empty. *)
Definition token_usable (storagedToken : option string) : bool :=
  match storagedToken with
  | Some t => truthy_string t
  | None => false
  end.

(** [data.data[0]] as one read: [None] when either step throws. *)
Definition first_record (data : jsval) : option jsval :=
  match get_prop data "data" with
  | Some rows => index0 rows
  | None => None
  end.

(** In the run [x], started from [w], the store key [k] and the default
    header [h] are at every suspension point and at the end what they were
    in [w]. *)
Definition left_alone (w : world) (k h : string)
    (x : list (call * world) * outcome unit * world) : Prop :=
  Forall (λ p, storage p.2 !! k = storage w !! k ∧ headers p.2 !! h = headers w !! h)
         (points x)
  ∧ storage (final x) !! k = storage w !! k
  ∧ headers (final x) !! h = headers w !! h.

End useAuth.

(* ===================================================================== *)
(** ** Sample environments *)
(* ===================================================================== *)

Module Sample.

Import JS Async useAuth.

Definition dq : string := String (ascii_of_nat 34) EmptyString.

(** A compact printer for the sample records (their strings need no
    escapes). *)
Fixpoint show (v : jsval) : string :=
  match v with
  | JUndefined => "undefined"
  | JNull => "null"
  | JBool b => bool_to_string b
  | JNum n => pretty n
  | JStr s => dq +:+ s +:+ dq
  | JArr items => "[" +:+ join "," (map show items) +:+ "]"
  | JObj fields =>
      "{" +:+ join "," (map (λ '(k, x), dq +:+ k +:+ dq +:+ ":" +:+ show x) fields) +:+ "}"
  end.

Definition alice : jsval :=
  JObj [("id", JStr "44322889"); ("login", JStr "alice");
        ("display_name", JStr "Alice"); ("email", JStr "alice@example.org");
        ("profile_image_url", JStr "https://example.org/alice.png")].

(** A reader that knows the one record the samples store. *)
Definition read_back (s : string) : exn + jsval :=
  if String.eqb s (show alice) then inr alice
  else inl {| name := "SyntaxError"; message := "JSON Parse error" |}.

Definition response (ty token st : string) : StartAsyncResponse :=
  {| params := {| access_token := token; scope := "openid user:read:email user:read:follows";
                  state := st; token_type := "bearer" |};
     type := ty; url := "exp://127.0.0.1:19000/--/expo-auth-session" |}.

Definition profile (rows : list jsval) : jsval := JObj [("data", JArr rows)].

Definition valid (login : string) : jsval :=
  JObj [("client_id", JStr "cid"); ("login", JStr login); ("expires_in", JNum 5520838)].

Definition no_fault : call → option exn := λ _, None.

(** The store refuses to touch the key [k]. *)
Definition fault_on (k : string) : call → option exn :=
  λ c, match c with
       | SetItem k' _ | RemoveItem k' =>
           if String.eqb k k'
           then Some {| name := "Error"; message := "database or disk is full" |}
           else None
       | _ => None
       end.

Definition network_error : exn :=
  {| name := "Error"; message := "Network Error" |}.

Definition world_of (start : outcome StartAsyncResponse) (users validate : outcome jsval)
    (revoke : outcome bool) (fault : call → option exn) : env :=
  {| CLIENT_ID := "cid";
     makeRedirectUri := "https://auth.expo.io/@owner/streamdata";
     generateRandom := λ n, String.substring 0 n "q7XkP2mZr9LbT4vNc8HsWd1YfGu3Ae";
     startAsync := λ _, start;
     api_get := λ _ _ _, users;
     axios_get := λ _ _, validate;
     revokeAsync := λ _ _ _, revoke;
     storage_fault := fault;
     invalid_value := new_Error "[AsyncStorage] Passing null/undefined as value is not supported.";
     JSON_parse := read_back;
     JSON_serialize := show;
     TypeError := {| name := "TypeError"; message := "undefined is not an object" |} |}.

(** The user grants access. *)
Definition granted : outcome StartAsyncResponse :=
  Resolved (response "success" "tok123" "q7XkP2mZr9LbT4vNc8HsWd1YfGu3Ae").

(** Everything goes well. *)
Definition happy : env :=
  world_of granted (Resolved (profile [alice])) (Resolved (valid "alice"))
           (Resolved true) no_fault.

(** The user closes the authorization page. *)
Definition dismissed : env :=
  world_of (Resolved (response "dismiss" "" "")) (Resolved (profile [alice]))
           (Resolved (valid "alice")) (Resolved true) no_fault.

(** The profile endpoint cannot be reached. *)
Definition profile_down : env :=
  world_of granted (Rejected network_error) (Resolved (valid "alice"))
           (Resolved true) no_fault.

(** The profile endpoint answers with no record. *)
Definition no_record : env :=
  world_of granted (Resolved (profile [])) (Resolved (valid "alice"))
           (Resolved true) no_fault.

(** The profile endpoint answers with a record without fields. *)
Definition empty_record : env :=
  world_of granted (Resolved (profile [empty_object])) (Resolved (valid "alice"))
           (Resolved true) no_fault.

(** The authorization answers [success] with an empty access token. *)
Definition blank_token : env :=
  world_of (Resolved (response "success" "" "q7XkP2mZr9LbT4vNc8HsWd1YfGu3Ae"))
           (Resolved (profile [alice])) (Resolved (valid "alice"))
           (Resolved true) no_fault.

(** The store refuses the user entry, then the token entry. *)
Definition user_entry_refused : env :=
  world_of granted (Resolved (profile [alice])) (Resolved (valid "alice"))
           (Resolved true) (fault_on KEYS.USER).

Definition token_entry_refused : env :=
  world_of granted (Resolved (profile [alice])) (Resolved (valid "alice"))
           (Resolved true) (fault_on KEYS.TOKEN).

(** The revocation endpoint cannot be reached. *)
Definition revocation_down : env :=
  world_of granted (Resolved (profile [alice])) (Resolved (valid "alice"))
           (Rejected network_error) no_fault.

(** The persisted token is no longer valid. *)
Definition expired : env :=
  world_of granted (Resolved (profile [alice]))
           (Rejected {| name := "Error"; message := "Request failed with status code 401" |})
           (Resolved true) no_fault.

(** The same, with a store that refuses to touch the token entry. *)
Definition expired_token_entry_refused : env :=
  world_of granted (Resolved (profile [alice]))
           (Rejected {| name := "Error"; message := "Request failed with status code 401" |})
           (Resolved true) (fault_on KEYS.TOKEN).

Definition signed_out : world := initial ∅ ∅.

Definition signed_in : world :=
  {| isLoggingOut := false; isLoggingIn := false; user := alice; userToken := "tok123";
     headers := <["Authorization" := "Bearer tok123"]> (<["Client-Id" := "cid"]> ∅);
     storage := <[KEYS.USER := show alice]> (<[KEYS.TOKEN := "tok123"]> ∅) |}.

(** A relaunch: nothing in memory, the session of [signed_in] in the store. *)
Definition relaunched : world := initial ∅ (storage signed_in).

(** The authorization session cannot be started. *)
Definition flow_broken : env :=
  world_of (Rejected {| name := "Error"; message := "Cannot start a new task" |})
           (Resolved (profile [alice])) (Resolved (valid "alice"))
           (Resolved true) no_fault.

(** The profile endpoint answers with an empty body. *)
Definition profile_null : env :=
  world_of granted (Resolved JNull) (Resolved (valid "alice")) (Resolved true) no_fault.

(** The persisted token belongs to somebody else. *)
Definition other_login : env :=
  world_of granted (Resolved (profile [alice])) (Resolved (valid "bob"))
           (Resolved true) no_fault.

(** The validation endpoint answers with an empty body. *)
Definition validation_null : env :=
  world_of granted (Resolved (profile [alice])) (Resolved JNull)
           (Resolved true) no_fault.

(** A relaunch over a store whose user entry is no JSON text. *)
Definition relaunched_corrupt : world :=
  initial ∅ (<[KEYS.USER := "{id:"]> (<[KEYS.TOKEN := "tok123"]> ∅)).

End Sample.

Import JS Async useAuth.

(* ===================================================================== *)
(** ** Rules of the program logic *)
(* ===================================================================== *)

Section Logic.
Context {St Ev : Type}.
Implicit Types (P J : St → Prop) (I : Ev → St → Prop).
Local Abbreviation async := (async St Ev).

Lemma wp_ret {A} (a : A) I (Q : outcome A → St → Prop) s :
  Q (Resolved a) s → wp (mret a : async A) I Q s.
Proof. intros H. split; [constructor | exact H]. Qed.

Lemma wp_throw {A} e I (Q : outcome A → St → Prop) s :
  Q (Rejected e) s → wp (throw e : async A) I Q s.
Proof. intros H. split; [constructor | exact H]. Qed.

Lemma wp_modify (f : St → St) I (Q : outcome unit → St → Prop) s :
  Q (Resolved tt) (f s) → wp (modify f : async unit) I Q s.
Proof. intros H. split; [constructor | exact H]. Qed.

Lemma wp_gets {A} (f : St → A) I (Q : outcome A → St → Prop) s :
  Q (Resolved (f s)) s → wp (gets f : async A) I Q s.
Proof. intros H. split; [constructor | exact H]. Qed.

Lemma wp_await {A} (c : Ev) (r : outcome A) (upd : St → St) I
    (Q : outcome A → St → Prop) s :
  I c s →
  Q r (match r with Resolved _ => upd s | Rejected _ => s end) →
  wp (await c r upd : async A) I Q s.
Proof. intros HI HQ. split; [by repeat constructor | exact HQ]. Qed.

Lemma wp_bind {A B} (m : async A) (k : A → async B) I (Q : outcome B → St → Prop) s :
  wp m I (λ r s1, match r with
                  | Resolved a => wp (k a) I Q s1
                  | Rejected e => Q (Rejected e) s1
                  end) s →
  wp (m ≫= k) I Q s.
Proof.
  unfold wp, mbind, async_bind, bind, points, settled, final.
  destruct (m s) as [[t [a|e]] s1]; cbn; [|done].
  destruct (k a s1) as [[t' r] s2]; cbn. intros (Ht & Ht' & HQ).
  split; [by apply Forall_app|done].
Qed.

Lemma wp_try_catch {A} (m : async A) (h : exn → async A) I
    (Q : outcome A → St → Prop) s :
  wp m I (λ r s1, match r with
                  | Resolved a => Q (Resolved a) s1
                  | Rejected e => wp (h e) I Q s1
                  end) s →
  wp (try_catch m h) I Q s.
Proof.
  unfold wp, try_catch, points, settled, final.
  destruct (m s) as [[t [a|e]] s1]; cbn; [done|].
  destruct (h e s1) as [[t' r] s2]; cbn. intros (Ht & Ht' & HQ).
  split; [by apply Forall_app|done].
Qed.

Lemma wp_try_finally {A} (m : async A) (f : async unit) I
    (Q : outcome A → St → Prop) s :
  wp m I (λ r s1, wp f I (λ r' s2, match r' with
                                   | Resolved _ => Q r s2
                                   | Rejected e => Q (Rejected e) s2
                                   end) s1) s →
  wp (try_finally m f) I Q s.
Proof.
  unfold wp, try_finally, points, settled, final.
  destruct (m s) as [[t r] s1]; cbn.
  destruct (f s1) as [[t' [[]|e]] s2]; cbn; intros (Ht & Ht' & HQ);
    (split; [by apply Forall_app|done]).
Qed.

Lemma wp_mono {A} (m : async A) I I' (Q Q' : outcome A → St → Prop) s :
  wp m I' Q' s → (∀ c s', I' c s' → I c s') → (∀ r s', Q' r s' → Q r s') →
  wp m I Q s.
Proof.
  intros [Hp Hq] HI HQ. split; [|by apply HQ].
  eapply Forall_impl; [exact Hp|]. intros p. apply HI.
Qed.

(** Invariants compose along the structure of the program. *)

Lemma keeps_ret {A} J (a : A) : keeps J (mret a : async A).
Proof. intros s Hs. by apply wp_ret. Qed.

Lemma keeps_throw {A} J e : keeps J (throw e : async A).
Proof. intros s Hs. by apply wp_throw. Qed.

Lemma keeps_modify J (f : St → St) : (∀ s, J s → J (f s)) → keeps J (modify f : async unit).
Proof. intros H s Hs. by apply wp_modify, H. Qed.

Lemma keeps_gets {A} J (f : St → A) : keeps J (gets f : async A).
Proof. intros s Hs. by apply wp_gets. Qed.

Lemma keeps_await {A} J (c : Ev) (r : outcome A) (upd : St → St) :
  (∀ s, J s → J (upd s)) → keeps J (await c r upd : async A).
Proof. intros H s Hs. apply wp_await; [done|]. destruct r; auto. Qed.

Lemma keeps_bind {A B} J (m : async A) (k : A → async B) :
  keeps J m → (∀ a, keeps J (k a)) → keeps J (m ≫= k).
Proof.
  intros Hm Hk s Hs. apply wp_bind. eapply wp_mono; [by apply Hm|done|].
  intros [a|e] s' Hs'; [by apply Hk|done].
Qed.

Lemma keeps_try_catch {A} J (m : async A) (h : exn → async A) :
  keeps J m → (∀ e, keeps J (h e)) → keeps J (try_catch m h).
Proof.
  intros Hm Hh s Hs. apply wp_try_catch. eapply wp_mono; [by apply Hm|done|].
  intros [a|e] s' Hs'; [done|by apply Hh].
Qed.

Lemma keeps_try_finally {A} J (m : async A) (f : async unit) :
  keeps J m → keeps J f → keeps J (try_finally m f).
Proof.
  intros Hm Hf s Hs. apply wp_try_finally. eapply wp_mono; [by apply Hm|done|].
  intros r s' Hs'. eapply wp_mono; [by apply Hf|done|]. by intros [[]|e].
Qed.

End Logic.

(* ===================================================================== *)
(** ** The primitives of the hook *)
(* ===================================================================== *)

Section Primitives.
Variable E : env.
Implicit Types (I : call → world → Prop) (w : world).

Lemma wp_setItem k s I (Q : outcome unit → world → Prop) w :
  I (SetItem k (Some s)) w →
  match storage_fault E (SetItem k (Some s)) with
  | Some e => Q (Rejected e) w
  | None => Q (Resolved tt) (with_storage (insert k s) w)
  end →
  wp (AsyncStorage_setItem E k (Some s)) I Q w.
Proof.
  intros HI HQ. apply wp_await; [done|]. unfold settle.
  by destruct (storage_fault E _).
Qed.

Lemma wp_removeItem k I (Q : outcome unit → world → Prop) w :
  I (RemoveItem k) w →
  match storage_fault E (RemoveItem k) with
  | Some e => Q (Rejected e) w
  | None => Q (Resolved tt) (with_storage (delete k) w)
  end →
  wp (AsyncStorage_removeItem E k) I Q w.
Proof.
  intros HI HQ. apply wp_await; [done|]. unfold settle.
  by destruct (storage_fault E _).
Qed.

Lemma wp_getItem k I (Q : outcome (option string) → world → Prop) w :
  I (GetItem k) w →
  match storage_fault E (GetItem k) with
  | Some e => Q (Rejected e) w
  | None => Q (Resolved (storage w !! k)) w
  end →
  wp (AsyncStorage_getItem E k) I Q w.
Proof.
  intros HI HQ. unfold AsyncStorage_getItem. apply wp_await; [done|]. unfold settle.
  by destruct (storage_fault E _).
Qed.

Lemma wp_read {A} (o : option A) I (Q : outcome A → world → Prop) w :
  match o with
  | Some a => Q (Resolved a) w
  | None => Q (Rejected (TypeError E)) w
  end →
  wp (read E o) I Q w.
Proof. destruct o; intros H; [by apply wp_ret|by apply wp_throw]. Qed.

Lemma wp_lift {A} (x : exn + A) I (Q : outcome A → world → Prop) w :
  match x with
  | inl e => Q (Rejected e) w
  | inr a => Q (Resolved a) w
  end →
  wp (lift x) I Q w.
Proof. destruct x; intros H; [by apply wp_throw|by apply wp_ret]. Qed.

(** What the token update leaves alone, and what it sets. *)

Lemma put_userToken_isLoggingIn t w : isLoggingIn (put_userToken E t w) = isLoggingIn w.
Proof. unfold put_userToken, header_sync. by repeat case_match. Qed.

Lemma put_userToken_isLoggingOut t w : isLoggingOut (put_userToken E t w) = isLoggingOut w.
Proof. unfold put_userToken, header_sync. by repeat case_match. Qed.

Lemma put_userToken_user t w : user (put_userToken E t w) = user w.
Proof. unfold put_userToken, header_sync. by repeat case_match. Qed.

Lemma put_userToken_storage t w : storage (put_userToken E t w) = storage w.
Proof. unfold put_userToken, header_sync. by repeat case_match. Qed.

Lemma put_userToken_userToken t w : userToken (put_userToken E t w) = t.
Proof.
  unfold put_userToken, header_sync.
  destruct (String.eqb (userToken w) t) eqn:Heq; [by apply String.eqb_eq|].
  by case_match.
Qed.

End Primitives.

Create Rewrite HintDb world.
#[local] Hint Rewrite put_userToken_isLoggingIn put_userToken_isLoggingOut
  put_userToken_user put_userToken_storage put_userToken_userToken : world.

Ltac wp_struct :=
  repeat first
    [ apply wp_try_finally | apply wp_try_catch | apply wp_bind
    | apply wp_modify | apply wp_ret | apply wp_throw | apply wp_gets ];
  lazy beta iota.

Ltac wp_call H := apply wp_await; [try done | rewrite ?H; lazy beta iota].

Section SignIn.
Variable E : env.
Implicit Types (w : world) (r : StartAsyncResponse).

Lemma signIn_denied w r :
  startAsync E (authUrl E) = Resolved r →
  type r ≠ "success" →
  wp (signIn E) (λ c _, is_SetItem c = false)
     (λ o w', o = Rejected (new_Error_of (new_Error "Access denied"))
              ∧ storage w' = storage w) w.
Proof.
  intros Hs Ht. apply String.eqb_neq in Ht.
  unfold signIn, setIsLoggingIn. wp_struct. wp_call Hs.
  rewrite Ht. wp_struct. done.
Qed.

Lemma signIn_profile_failed w r e :
  startAsync E (authUrl E) = Resolved r →
  type r = "success" →
  api_get E "/users" (CLIENT_ID E) ("Bearer " +:+ access_token (params r)) = Rejected e →
  wp (signIn E) (λ c _, is_SetItem c = false)
     (λ o w', o = Rejected (new_Error_of (new_Error_of e))
              ∧ storage w' = storage w
              ∧ user w' = user w
              ∧ userToken w' = userToken w
              ∧ headers w' !! "Authorization"
                = Some ("Bearer " +:+ access_token (params r))) w.
Proof.
  intros Hs Ht Hu. apply String.eqb_eq in Ht.
  unfold signIn, setIsLoggingIn, set_header. wp_struct. wp_call Hs.
  rewrite Ht. wp_struct. wp_call Hu. wp_struct.
  repeat split. cbn. by rewrite lookup_insert_eq.
Qed.

Lemma signIn_committed w r data rows first :
  startAsync E (authUrl E) = Resolved r →
  type r = "success" →
  api_get E "/users" (CLIENT_ID E) ("Bearer " +:+ access_token (params r)) = Resolved data →
  get_prop data "data" = Some rows →
  index0 rows = Some first →
  first ≠ JUndefined →
  writes_succeed E (access_token (params r)) first →
  wp (signIn E) (λ _ _, True)
     (λ o w', o = Resolved tt
              ∧ user w' = first
              ∧ userToken w' = access_token (params r)
              ∧ storage w' !! KEYS.TOKEN = Some (access_token (params r))
              ∧ storage w' !! KEYS.USER = Some (JSON_serialize E first)) w.
Proof.
  intros Hs Ht Hu Hrows Hfirst Hdef [Hw1 Hw2]. apply String.eqb_eq in Ht.
  assert (JSON_stringify E first = Some (JSON_serialize E first)) as Hstr
    by by destruct first.
  rewrite Hstr in Hw2.
  unfold signIn, setIsLoggingIn, set_header, setUser, setUserToken. wp_struct. wp_call Hs.
  rewrite Ht. wp_struct. wp_call Hu. wp_struct.
  apply wp_read. rewrite Hrows. wp_struct.
  apply wp_read. rewrite Hfirst. wp_struct.
  apply wp_setItem; [done|]. rewrite Hw1. wp_struct.
  rewrite Hstr. apply wp_setItem; [done|]. rewrite Hw2. wp_struct.
  cbn. autorewrite with world. repeat split.
  - by rewrite lookup_insert_ne, lookup_insert_eq.
  - by rewrite lookup_insert_eq.
Qed.

End SignIn.

Section Restore.
Variable E : env.
Implicit Types (w : world).

Lemma header_sync_storage w : storage (header_sync E w) = storage w.
Proof. unfold header_sync. by case_match. Qed.

Lemma header_sync_user w : user (header_sync E w) = user w.
Proof. unfold header_sync. by case_match. Qed.

Lemma header_sync_userToken w : userToken (header_sync E w) = userToken w.
Proof. unfold header_sync. by case_match. Qed.

Lemma truthy_string_true s : s ≠ "" → truthy_string s = true.
Proof. intros H. unfold truthy_string. apply String.eqb_neq in H. by rewrite H. Qed.

(** The validation call is made only after both reads have resolved, for a
    persisted token that is not empty, and once the persisted user text has
    been parsed. *)
Lemma restore_validates_after_reads w :
  Forall (λ p, is_AxiosGet p.1 = true →
               reads_succeed E
               ∧ ∃ t u, storage w !! KEYS.TOKEN = Some t
                        ∧ truthy_string t = true
                        ∧ userLogged_of E (storage w !! KEYS.USER) = inr u)
         (points (restore E w)).
Proof.
  enough (wp (restore E)
            (λ c _, is_AxiosGet c = true →
                    reads_succeed E
                    ∧ ∃ t u, storage w !! KEYS.TOKEN = Some t
                             ∧ truthy_string t = true
                             ∧ userLogged_of E (storage w !! KEYS.USER) = inr u)
            (λ _ _, True) w) as [H _] by exact H.
  unfold restore, setIsLoggingIn, setUser, setUserToken. wp_struct.
  apply wp_getItem; [done|].
  destruct (storage_fault E (GetItem KEYS.TOKEN)) eqn:Hr1; [done|]. wp_struct.
  apply wp_getItem; [done|].
  destruct (storage_fault E (GetItem KEYS.USER)) eqn:Hr2; [done|]. wp_struct.
  apply wp_lift. destruct (userLogged_of E _) as [e|userLogged] eqn:Hu; [done|].
  destruct (storage w !! KEYS.TOKEN) as [t|]; [|by apply wp_ret].
  destruct (truthy_string t) eqn:Ht; [|by apply wp_ret].
  wp_struct. apply wp_await; [intros _; split; [done|by exists t, userLogged]|].
  destruct (axios_get E _ _) as [data|e]; lazy beta iota.
  - apply wp_bind, wp_read. destruct (get_prop data "login"); wp_struct.
    + destruct (strict_eq _ _); by wp_struct.
    + apply wp_removeItem; [done|].
      destruct (storage_fault E (RemoveItem KEYS.TOKEN)); wp_struct; [done|].
      apply wp_removeItem; [done|].
      by destruct (storage_fault E (RemoveItem KEYS.USER)); wp_struct.
  - wp_struct. apply wp_removeItem; [done|].
    destruct (storage_fault E (RemoveItem KEYS.TOKEN)); wp_struct; [done|].
    apply wp_removeItem; [done|].
    by destruct (storage_fault E (RemoveItem KEYS.USER)); wp_struct.
Qed.

Lemma restore_matched w t u data login :
  reads_succeed E →
  storage w !! KEYS.TOKEN = Some t →
  t ≠ "" →
  userLogged_of E (storage w !! KEYS.USER) = inr u →
  axios_get E validate_url ("OAuth " +:+ t) = Resolved data →
  get_prop data "login" = Some login →
  strict_eq login (get_prop_opt u "login") = true →
  wp (restore E) (λ c _, is_StartAsync c = false)
     (λ o w', o = Resolved tt ∧ userToken w' = t ∧ user w' = u
              ∧ isLoggingIn w' = false ∧ storage w' = storage w) w.
Proof.
  intros [Hr1 Hr2] Htok Ht Hu Hv Hlogin Heq. apply truthy_string_true in Ht.
  unfold restore, setIsLoggingIn, setUser, setUserToken. wp_struct.
  apply wp_getItem; [done|]. rewrite Hr1, Htok. wp_struct.
  apply wp_getItem; [done|]. rewrite Hr2. lazy beta iota.
  wp_struct. apply wp_lift. rewrite Hu. wp_struct.
  rewrite Ht. wp_struct. wp_call Hv. wp_struct.
  apply wp_read. rewrite Hlogin. wp_struct. rewrite Heq. wp_struct.
  cbn. autorewrite with world. done.
Qed.

Lemma restore_invalid w t u e :
  reads_succeed E →
  storage w !! KEYS.TOKEN = Some t →
  t ≠ "" →
  userLogged_of E (storage w !! KEYS.USER) = inr u →
  axios_get E validate_url ("OAuth " +:+ t) = Rejected e →
  wp (restore E) (λ _ _, True)
     (λ o w', user w' = empty_object ∧ userToken w' = "" ∧ isLoggingIn w' = false
              ∧ (removals_succeed E → o = Resolved tt)
              ∧ (o = Resolved tt →
                 storage w' !! KEYS.TOKEN = None
                 ∧ storage w' !! KEYS.USER = None)) w.
Proof.
  intros [Hr1 Hr2] Htok Ht Hu Hv. apply truthy_string_true in Ht.
  unfold restore, setIsLoggingIn, setUser, setUserToken. wp_struct.
  apply wp_getItem; [done|]. rewrite Hr1, Htok. wp_struct.
  apply wp_getItem; [done|]. rewrite Hr2. lazy beta iota.
  wp_struct. apply wp_lift. rewrite Hu. wp_struct.
  rewrite Ht. wp_struct. wp_call Hv. wp_struct.
  apply wp_removeItem; [done|].
  destruct (storage_fault E (RemoveItem KEYS.TOKEN)) as [e1|] eqn:H1.
  { wp_struct. cbn. autorewrite with world. split_and!; try done.
    intros [? _]. congruence. }
  wp_struct. apply wp_removeItem; [done|].
  destruct (storage_fault E (RemoveItem KEYS.USER)) as [e2|] eqn:H2.
  { wp_struct. cbn. autorewrite with world. split_and!; try done.
    intros [_ ?]. congruence. }
  wp_struct. cbn. autorewrite with world. split_and!; try done. intros _. split.
  - by rewrite lookup_delete_ne, lookup_delete_eq.
  - by rewrite lookup_delete_eq.
Qed.

End Restore.

Section SignOut.
Variable E : env.
Implicit Types (w : world).

(** What the [finally] block of [signOut] does from any world. *)
Lemma signOut_finally w :
  wp (setUser empty_object ≫= λ _,
      setUserToken E "" ≫= λ _,
      delete_header "Authorization" ≫= λ _,
      AsyncStorage_removeItem E KEYS.TOKEN ≫= λ _,
      AsyncStorage_removeItem E KEYS.USER ≫= λ _,
      setIsLoggingOut false)
     (λ _ _, True)
     (λ o w', user w' = empty_object ∧ userToken w' = ""
              ∧ headers w' !! "Authorization" = None
              ∧ (removals_succeed E → o = Resolved tt)
              ∧ (o = Resolved tt →
                 storage w' !! KEYS.TOKEN = None
                 ∧ storage w' !! KEYS.USER = None)) w.
Proof.
  unfold setIsLoggingOut, setUser, setUserToken, delete_header.
  wp_struct. apply wp_removeItem; [done|].
  destruct (storage_fault E (RemoveItem KEYS.TOKEN)) as [e1|] eqn:H1.
  { cbn. autorewrite with world. split_and!; try done.
    - apply lookup_delete_eq.
    - intros [? _]. congruence. }
  wp_struct. apply wp_removeItem; [done|].
  destruct (storage_fault E (RemoveItem KEYS.USER)) as [e2|] eqn:H2.
  { cbn. autorewrite with world. split_and!; try done.
    - apply lookup_delete_eq.
    - intros [_ ?]. congruence. }
  wp_struct. cbn. autorewrite with world. split_and!; try done.
  - apply lookup_delete_eq.
  - intros _. split; [|by rewrite lookup_delete_eq].
    by rewrite lookup_delete_ne, lookup_delete_eq.
Qed.

(** The [try] block resolves however the revocation settles, so the whole
    of [signOut] ends as its [finally] block does. *)
Lemma signOut_teardown w :
  wp (signOut E) (λ _ _, True)
     (λ o w', user w' = empty_object ∧ userToken w' = ""
              ∧ headers w' !! "Authorization" = None
              ∧ (removals_succeed E → o = Resolved tt)
              ∧ (o = Resolved tt →
                 storage w' !! KEYS.TOKEN = None
                 ∧ storage w' !! KEYS.USER = None)) w.
Proof.
  unfold signOut.
  apply wp_try_finally, wp_try_catch, wp_bind, wp_modify, wp_bind, wp_gets, wp_bind.
  apply wp_await; [done|].
  destruct (revokeAsync E _ _ _); lazy beta iota; apply wp_ret.
  all: eapply wp_mono; [apply signOut_finally|done|].
  all: by intros [[]|e'] w' (? & ? & ? & ? & ?).
Qed.

End SignOut.

(* ===================================================================== *)
(** ** In-flight flags *)
(* ===================================================================== *)

Section Flags.
Variable E : env.
Implicit Types (w : world) (J : world → Prop).

Lemma keeps_set_header J k v : framed J → keeps J (set_header k v).
Proof. intros [Hh _]. apply keeps_modify, Hh. Qed.

Lemma keeps_delete_header J k : framed J → keeps J (delete_header k).
Proof. intros [Hh _]. apply keeps_modify, Hh. Qed.

Lemma keeps_setItem J k v : framed J → keeps J (AsyncStorage_setItem E k v).
Proof. intros [_ Hs]. destruct v; apply keeps_await; [apply Hs|done]. Qed.

Lemma keeps_removeItem J k : framed J → keeps J (AsyncStorage_removeItem E k).
Proof. intros [_ Hs]. apply keeps_await, Hs. Qed.

Lemma keeps_read {A} J (o : option A) : keeps J (read E o).
Proof. destruct o; [apply keeps_ret|apply keeps_throw]. Qed.

Lemma framed_logging_in : framed logging_in.
Proof. by split. Qed.

Lemma framed_logging_out : framed logging_out.
Proof. by split. Qed.

Lemma keeps_in_setUser u : keeps logging_in (setUser u).
Proof. by apply keeps_modify. Qed.

Lemma keeps_in_setUserToken t : keeps logging_in (setUserToken E t).
Proof.
  apply keeps_modify. intros w H. unfold logging_in.
  by rewrite put_userToken_isLoggingIn.
Qed.

Lemma keeps_out_setUser u : keeps logging_out (setUser u).
Proof. by apply keeps_modify. Qed.

Lemma keeps_out_setUserToken t : keeps logging_out (setUserToken E t).
Proof.
  apply keeps_modify. intros w H. unfold logging_out.
  by rewrite put_userToken_isLoggingOut.
Qed.

(** [signIn]: the flag is up at every suspension point and down at the end,
    however the calls settle. *)
Lemma signIn_flag w :
  wp (signIn E) (λ _, logging_in) (λ _ w', isLoggingIn w' = false) w.
Proof.
  unfold signIn. apply wp_try_finally.
  apply wp_mono with (I' := λ _, logging_in) (Q' := λ _, logging_in);
    [|done|by intros; apply wp_modify].
  apply wp_try_catch, wp_bind, wp_modify. lazy beta iota.
  apply wp_mono with (I' := λ _, logging_in) (Q' := λ _, logging_in); [|done|].
  2: { intros [[]|e] w' Hw'; [done|by apply wp_throw]. }
  apply (keeps_bind logging_in); [by apply keeps_await| |exact eq_refl]. intros response.
  destruct (String.eqb _ _); [|apply keeps_throw].
  apply keeps_bind; [apply keeps_set_header, framed_logging_in|]. intros _.
  apply keeps_try_catch; [|intros; apply keeps_throw].
  apply keeps_bind; [by apply keeps_await|]. intros data.
  apply keeps_bind; [apply keeps_read|]. intros rows.
  apply keeps_bind; [apply keeps_read|]. intros first.
  apply keeps_bind; [apply keeps_in_setUser|]. intros _.
  apply keeps_bind; [apply keeps_in_setUserToken|]. intros _.
  apply keeps_bind; [apply keeps_setItem, framed_logging_in|]. intros _.
  apply keeps_setItem, framed_logging_in.
Qed.

(** [restore]: the same, when it runs at all. *)
Lemma restore_flag w :
  isLoggingIn w = false →
  wp (restore E) (λ c w', match c with GetItem _ => True | _ => logging_in w' end)
     (λ _ w', isLoggingIn w' = false) w.
Proof.
  intros Hw. unfold restore. wp_struct.
  apply wp_getItem; [done|]. destruct (storage_fault E _); [done|]. wp_struct.
  apply wp_getItem; [done|]. destruct (storage_fault E _); [done|]. wp_struct.
  apply wp_lift. destruct (userLogged_of E _) as [e|userLogged]; [done|].
  destruct (storage w !! KEYS.TOKEN) as [t|]; [|by apply wp_ret].
  destruct (truthy_string t); [|by apply wp_ret].
  unfold setIsLoggingIn at 1. apply wp_bind, wp_modify, wp_try_finally.
  apply wp_mono with (I' := λ _, logging_in) (Q' := λ _, logging_in);
    [| |by intros; apply wp_modify].
  2: { by intros []. }
  apply (keeps_try_catch logging_in); [| |exact eq_refl].
  - apply keeps_bind; [by apply keeps_await|]. intros data.
    apply keeps_bind; [apply keeps_read|]. intros login.
    destruct (strict_eq _ _); [|apply keeps_ret].
    apply keeps_bind; [apply keeps_in_setUserToken|]. intros _.
    apply keeps_in_setUser.
  - intros _. apply keeps_bind; [apply keeps_in_setUserToken|]. intros _.
    apply keeps_bind; [apply keeps_in_setUser|]. intros _.
    apply keeps_bind; [apply keeps_removeItem, framed_logging_in|]. intros _.
    apply keeps_removeItem, framed_logging_in.
Qed.

(** [signOut]: the flag is up at every suspension point; at the end it is
    down exactly when [signOut] resolves.  A removal that rejects inside
    [finally] skips the reset. *)
Lemma signOut_flag w :
  wp (signOut E) (λ _, logging_out)
     (λ o w', match o with
              | Resolved _ => isLoggingOut w' = false
              | Rejected _ => isLoggingOut w' = true
              end) w.
Proof.
  unfold signOut. apply wp_try_finally.
  apply wp_mono with (I' := λ _, logging_out)
    (Q' := λ o w', logging_out w' ∧ o = Resolved tt); [|done|].
  - apply wp_try_catch, wp_bind, wp_modify. lazy beta iota.
    apply wp_bind, wp_gets, wp_bind, wp_await; [done|].
    destruct (revokeAsync E _ _ _); lazy beta iota; by apply wp_ret.
  - intros o w' [Hw' ->].
    apply wp_mono with (I' := λ _, logging_out)
      (Q' := λ o w', match o with
                     | Resolved _ => isLoggingOut w' = false
                     | Rejected _ => logging_out w'
                     end); [|done|by intros [[]|]].
    apply wp_bind. eapply wp_mono; [by apply keeps_out_setUser|done|].
    intros [[]|] w1 H1; [|done].
    apply wp_bind. eapply wp_mono; [by apply keeps_out_setUserToken|done|].
    intros [[]|] w2 H2; [|done].
    apply wp_bind. eapply wp_mono;
      [by apply keeps_delete_header; [apply framed_logging_out|]|done|].
    intros [[]|] w3 H3; [|done].
    apply wp_bind. eapply wp_mono;
      [by apply keeps_removeItem; [apply framed_logging_out|]|done|].
    intros [[]|] w4 H4; [|done].
    apply wp_bind. eapply wp_mono;
      [by apply keeps_removeItem; [apply framed_logging_out|]|done|].
    intros [[]|] w5 H5; [|done].
    by apply wp_modify.
Qed.

End Flags.

(* ===================================================================== *)
(** ** User and token go together *)
(* ===================================================================== *)

Section Paired.
Variable E : env.
Hypothesis WF : well_formed E.
Implicit Types (w : world).

Lemma paired_header_sync w : paired w → paired (header_sync E w).
Proof. unfold paired. by rewrite header_sync_user, header_sync_userToken. Qed.

Lemma paired_put w u t :
  user_present u = truthy_string t → paired (put_userToken E t (put_user u w)).
Proof. intros H. unfold paired. by rewrite put_userToken_user, put_userToken_userToken. Qed.

Lemma paired_put' w u t :
  user_present u = truthy_string t → paired (put_user u (put_userToken E t w)).
Proof. intros H. unfold paired. cbn. by rewrite put_userToken_userToken. Qed.

(** A record whose [login] equals a string has that field. *)
Lemma login_present l u :
  strict_eq (JStr l) (get_prop_opt u "login") = true → user_present u = true.
Proof. destruct u as [| | | | | |[|]]; done. Qed.

Lemma signIn_paired : keeps paired (signIn E).
Proof.
  intros w Hw. unfold signIn, setIsLoggingIn, set_header, setUser, setUserToken.
  wp_struct. apply wp_await; [exact Hw|].
  destruct (startAsync E (authUrl E)) as [r|e] eqn:Hs; lazy beta iota;
    [|wp_struct; exact Hw].
  destruct (String.eqb (type r) "success") eqn:Ht; [|wp_struct; exact Hw].
  apply String.eqb_eq in Ht. wp_struct. apply wp_await; [exact Hw|].
  destruct (api_get E _ _ _) as [data|e] eqn:Hu; lazy beta iota;
    [|wp_struct; exact Hw].
  destruct (wf_profile E WF _ _ _ _ Hu) as (rows & first & Hrows & Hfirst & Hpres).
  pose proof (truthy_string_true _ (wf_token E WF _ _ Hs Ht)) as Htok.
  wp_struct. apply wp_read. rewrite Hrows. wp_struct.
  apply wp_read. rewrite Hfirst. wp_struct.
  assert (∀ w0, paired (put_userToken E (access_token (params r)) (put_user first w0)))
    as Hp by (intros; apply paired_put; congruence).
  apply wp_setItem; [apply Hp|].
  destruct (storage_fault E _); [wp_struct; apply Hp|]. wp_struct.
  destruct first as [| | | | | |fields]; try done. cbn [JSON_stringify].
  apply wp_setItem; [apply Hp|].
  destruct (storage_fault E _); wp_struct; apply Hp.
Qed.

Lemma signOut_paired : keeps paired (signOut E).
Proof.
  intros w Hw. unfold signOut, setIsLoggingOut, setUser, setUserToken, delete_header.
  apply wp_try_finally, wp_try_catch, wp_bind, wp_modify, wp_bind, wp_gets, wp_bind.
  apply wp_await; [exact Hw|].
  assert (∀ w0, paired (put_userToken E "" (put_user empty_object w0)))
    as Hp by (intros; by apply paired_put).
  destruct (revokeAsync E _ _ _); lazy beta iota; apply wp_ret.
  all: wp_struct; apply wp_removeItem; [apply Hp|].
  all: destruct (storage_fault E _); [apply Hp|]; wp_struct.
  all: apply wp_removeItem; [apply Hp|].
  all: destruct (storage_fault E _); [apply Hp|]; wp_struct; apply Hp.
Qed.

Lemma restore_paired : keeps paired (restore E).
Proof.
  intros w Hw. unfold restore, setIsLoggingIn, setUser, setUserToken. wp_struct.
  apply wp_getItem; [done|]. destruct (storage_fault E _); [done|]. wp_struct.
  apply wp_getItem; [done|]. destruct (storage_fault E _); [done|]. wp_struct.
  apply wp_lift. destruct (userLogged_of E _) as [e|userLogged]; [done|].
  destruct (storage w !! KEYS.TOKEN) as [t|]; [|by apply wp_ret].
  destruct (truthy_string t) eqn:Ht; [|by apply wp_ret].
  wp_struct. apply wp_await; [exact Hw|].
  assert (∀ w0, paired (put_user empty_object (put_userToken E "" w0)))
    as Hp by (intros; by apply paired_put').
  destruct (axios_get E _ _) as [data|e] eqn:Hv; lazy beta iota.
  - destruct (wf_login E WF _ _ _ Hv) as [l Hl]. apply wp_bind, wp_read. rewrite Hl.
    wp_struct. destruct (strict_eq _ _) eqn:Heq; wp_struct; [|exact Hw].
    apply paired_put'. rewrite Ht. by apply login_present in Heq.
  - wp_struct. apply wp_removeItem; [apply Hp|].
    destruct (storage_fault E _); wp_struct; [apply Hp|].
    apply wp_removeItem; [apply Hp|].
    destruct (storage_fault E _); wp_struct; apply Hp.
Qed.

Lemma mount_paired : keeps paired (mount E).
Proof.
  unfold mount. apply keeps_bind; [apply keeps_modify, paired_header_sync|].
  intros _. apply restore_paired.
Qed.

End Paired.

Lemma signIn_state_blind E w r s1 s2 :
  signIn (answering E (Resolved (with_state s1 r))) w
  = signIn (answering E (Resolved (with_state s2 r))) w.
Proof. reflexivity. Qed.

(* ===================================================================== *)
(** ** Start-up as a whole *)
(* ===================================================================== *)

Section Mount.
Variable E : env.
Implicit Types (w : world).

(** The header effect that runs first touches neither the cells nor the
    store, so [mount] inherits what [restore] guarantees. *)
Lemma wp_mount I (Q : outcome unit → world → Prop) w :
  wp (restore E) I Q (header_sync E w) → wp (mount E) I Q w.
Proof. intros H. unfold mount. by apply wp_bind, wp_modify. Qed.

Lemma mount_matched w t u data login :
  reads_succeed E →
  storage w !! KEYS.TOKEN = Some t →
  t ≠ "" →
  userLogged_of E (storage w !! KEYS.USER) = inr u →
  axios_get E validate_url ("OAuth " +:+ t) = Resolved data →
  get_prop data "login" = Some login →
  strict_eq login (get_prop_opt u "login") = true →
  wp (mount E) (λ c _, is_StartAsync c = false)
     (λ o w', o = Resolved tt ∧ userToken w' = t ∧ user w' = u
              ∧ isLoggingIn w' = false ∧ storage w' = storage w) w.
Proof.
  intros Hr Htok Ht Hu Hv Hl Heq. apply wp_mount.
  rewrite <- (header_sync_storage E w) in Htok, Hu |- *.
  by eapply restore_matched.
Qed.

Lemma mount_invalid w t u e :
  reads_succeed E →
  storage w !! KEYS.TOKEN = Some t →
  t ≠ "" →
  userLogged_of E (storage w !! KEYS.USER) = inr u →
  axios_get E validate_url ("OAuth " +:+ t) = Rejected e →
  wp (mount E) (λ _ _, True)
     (λ o w', user w' = empty_object ∧ userToken w' = "" ∧ isLoggingIn w' = false
              ∧ (removals_succeed E → o = Resolved tt)
              ∧ (o = Resolved tt →
                 storage w' !! KEYS.TOKEN = None
                 ∧ storage w' !! KEYS.USER = None)) w.
Proof.
  intros Hr Htok Ht Hu Hv. apply wp_mount.
  rewrite <- (header_sync_storage E w) in Htok, Hu.
  by eapply restore_invalid.
Qed.

End Mount.

Lemma truthy_string_nonempty s : truthy_string s = true → s ≠ "".
Proof.
  unfold truthy_string. intros H ->. done.
Qed.

Lemma user_present_defined u : user_present u = true → u ≠ JUndefined.
Proof. by intros H ->. Qed.

Lemma happy_well_formed : well_formed Sample.happy.
Proof.
  split.
  - intros u r [= <-] _. done.
  - intros p c a data [= <-]. by exists (JArr [Sample.alice]), Sample.alice.
  - intros u a data [= <-]. by exists "alice".
Qed.

(* ===================================================================== *)
(** ** The session lifecycle *)
(* ===================================================================== *)

(** *** Sign-in *)

(** C1, as amended.  When the authorization flow answers [success] with a
    non-empty access token, the profile request resolves with a body whose
    [data[0]] is a record with fields, and both store writes go through,
    [signIn] resolves; the user cell holds that record and the token cell the
    access token, both non-empty, and both persisted entries exist: the
    token entry holds the in-memory token and the user entry the serialized
    in-memory user. *)
Theorem signIn_commits_session E w r data rows first :
  startAsync E (authUrl E) = Resolved r →
  type r = "success" →
  truthy_string (access_token (params r)) = true →
  api_get E "/users" (CLIENT_ID E) ("Bearer " +:+ access_token (params r)) = Resolved data →
  get_prop data "data" = Some rows →
  index0 rows = Some first →
  user_present first = true →
  writes_succeed E (access_token (params r)) first →
  let run := signIn E w in
  settled run = Resolved tt
  ∧ user (final run) = first
  ∧ user_present (user (final run)) = true
  ∧ userToken (final run) = access_token (params r)
  ∧ truthy_string (userToken (final run)) = true
  ∧ storage (final run) !! KEYS.TOKEN = Some (userToken (final run))
  ∧ storage (final run) !! KEYS.USER = JSON_stringify E (user (final run)).
Proof.
  intros Hs Ht Htok Hu Hrows Hfirst Hpres Hw run.
  destruct (signIn_committed E w r data rows first Hs Ht Hu Hrows Hfirst
              (user_present_defined _ Hpres) Hw)
    as (_ & Ho & Huser & Htoken & Hst1 & Hst2).
  fold run in Ho, Huser, Htoken, Hst1, Hst2.
  rewrite Huser, Htoken. split_and!; try done.
  rewrite Hst2. by destruct first.
Qed.

Lemma signIn_commits_session_witness :
  let run := signIn Sample.happy Sample.signed_out in
  settled run = Resolved tt
  ∧ user (final run) = Sample.alice
  ∧ user_present (user (final run)) = true
  ∧ userToken (final run) = "tok123"
  ∧ truthy_string (userToken (final run)) = true
  ∧ storage (final run) !! KEYS.TOKEN = Some (userToken (final run))
  ∧ storage (final run) !! KEYS.USER = JSON_stringify Sample.happy (user (final run)).
Proof.
  apply (signIn_commits_session Sample.happy Sample.signed_out
           (Sample.response "success" "tok123" "q7XkP2mZr9LbT4vNc8HsWd1YfGu3Ae")
           (Sample.profile [Sample.alice]) (JArr [Sample.alice]) Sample.alice);
    try reflexivity.
  split; reflexivity.
Defined.

(** C1 fails as stated: the flow answers [success] with an empty access
    token and the profile request resolves; [signIn] resolves with a user in
    memory and an empty token. *)
Lemma signIn_blank_token_counterexample :
  let E := Sample.blank_token in
  let run := signIn E Sample.signed_out in
  (∃ r, startAsync E (authUrl E) = Resolved r ∧ type r = "success")
  ∧ api_get E "/users" (CLIENT_ID E) "Bearer " = Resolved (Sample.profile [Sample.alice])
  ∧ settled run = Resolved tt
  ∧ userToken (final run) = ""
  ∧ ¬ (user_present (user (final run)) = true
       ∧ truthy_string (userToken (final run)) = true
       ∧ storage (final run) !! KEYS.TOKEN = Some (userToken (final run))
       ∧ storage (final run) !! KEYS.USER = JSON_stringify E (user (final run))).
Proof.
  split_and!; try reflexivity.
  - by eexists.
  - intros (_ & H & _). vm_compute in H. discriminate H.
Qed.

(** The other two conditions of C1 are needed as well.  A record without
    fields leaves the user cell empty; a body without a record leaves it
    [undefined] and the user entry unwritten; a store that refuses the user
    entry leaves user and token in memory and no user entry. *)
Example signIn_with_empty_record :
  let run := signIn Sample.empty_record Sample.signed_out in
  settled run = Resolved tt
  ∧ user (final run) = empty_object
  ∧ userToken (final run) = "tok123".
Proof. by vm_compute. Qed.

Example signIn_without_record :
  let run := signIn Sample.no_record Sample.signed_out in
  user (final run) = JUndefined
  ∧ userToken (final run) = "tok123"
  ∧ storage (final run) !! KEYS.USER = None.
Proof. by vm_compute. Qed.

Example signIn_with_refused_write :
  let run := signIn Sample.user_entry_refused Sample.signed_out in
  (∃ e, settled run = Rejected e)
  ∧ user (final run) = Sample.alice
  ∧ userToken (final run) = "tok123"
  ∧ storage (final run) !! KEYS.TOKEN = Some "tok123"
  ∧ storage (final run) !! KEYS.USER = None.
Proof. split_and!; try reflexivity. by eexists. Qed.

(** C4.  When the authorization flow answers with a type other than
    [success], [signIn] rejects with the error made from [Access denied],
    the store is as it was and no write was attempted. *)
Theorem signIn_rejects_access_denied E w r :
  startAsync E (authUrl E) = Resolved r →
  String.eqb (type r) "success" = false →
  let run := signIn E w in
  settled run = Rejected (new_Error_of (new_Error "Access denied"))
  ∧ message (new_Error_of (new_Error "Access denied")) = "Error: Access denied"
  ∧ storage (final run) = storage w
  ∧ Forall (λ p, is_SetItem p.1 = false) (points run).
Proof.
  intros Hs Ht run. apply String.eqb_neq in Ht.
  destruct (signIn_denied E w r Hs Ht) as (Hpts & Ho & Hst). by split_and!.
Qed.

Lemma signIn_rejects_access_denied_witness :
  let run := signIn Sample.dismissed Sample.signed_in in
  settled run = Rejected (new_Error_of (new_Error "Access denied"))
  ∧ message (new_Error_of (new_Error "Access denied")) = "Error: Access denied"
  ∧ storage (final run) = storage Sample.signed_in
  ∧ Forall (λ p, is_SetItem p.1 = false) (points run).
Proof.
  apply (signIn_rejects_access_denied Sample.dismissed Sample.signed_in
           (Sample.response "dismiss" "" "")); reflexivity.
Defined.

(** The text of the cause survives both conversions. *)
Lemma wrapped_message e :
  toString e ≠ "" →
  message (new_Error_of (new_Error_of e)) = "Error: " +:+ toString e.
Proof.
  intros H. apply String.eqb_neq in H.
  unfold new_Error_of, new_Error, toString at 1. cbn. by rewrite H.
Qed.



(** C10.  On the same path the default [Authorization] header is left
    carrying the new bearer token, while user cell, token cell and store are
    as they were. *)
Theorem signIn_leaves_Authorization_header E w r e :
  startAsync E (authUrl E) = Resolved r →
  type r = "success" →
  api_get E "/users" (CLIENT_ID E) ("Bearer " +:+ access_token (params r)) = Rejected e →
  let run := signIn E w in
  (∃ e', settled run = Rejected e')
  ∧ headers (final run) !! "Authorization" = Some ("Bearer " +:+ access_token (params r))
  ∧ user (final run) = user w
  ∧ userToken (final run) = userToken w
  ∧ storage (final run) = storage w.
Proof.
  intros Hs Ht Hu run.
  destruct (signIn_profile_failed E w r e Hs Ht Hu)
    as (_ & Ho & Hst & Huser & Htoken & Hh).
  split_and!; try done. by eexists.
Qed.

Lemma signIn_leaves_Authorization_header_witness :
  let run := signIn Sample.profile_down Sample.signed_out in
  (∃ e', settled run = Rejected e')
  ∧ headers (final run) !! "Authorization" = Some "Bearer tok123"
  ∧ user (final run) = empty_object
  ∧ userToken (final run) = ""
  ∧ storage (final run) = ∅.
Proof.
  apply (signIn_leaves_Authorization_header Sample.profile_down Sample.signed_out
           (Sample.response "success" "tok123" "q7XkP2mZr9LbT4vNc8HsWd1YfGu3Ae")
           Sample.network_error); reflexivity.
Defined.

(** C6.  Two runs of [signIn] whose [success] responses differ only in the
    returned [state] have the same suspension points, settle alike and end
    in the same world; with [s2] the generated [STATE], a returned state
    that differs from it changes nothing. *)
Theorem signIn_ignores_returned_state E w r s1 s2 :
  type r = "success" →
  signIn (answering E (Resolved (with_state s1 r))) w
  = signIn (answering E (Resolved (with_state s2 r))) w.
Proof. intros _. apply signIn_state_blind. Qed.

Lemma signIn_ignores_returned_state_witness :
  signIn (answering Sample.happy
            (Resolved (with_state "forged"
                         (Sample.response "success" "tok123" "")))) Sample.signed_out
  = signIn (answering Sample.happy
              (Resolved (with_state (generateRandom Sample.happy 30)
                           (Sample.response "success" "tok123" "")))) Sample.signed_out.
Proof.
  apply (signIn_ignores_returned_state Sample.happy Sample.signed_out
           (Sample.response "success" "tok123" "") "forged"
           (generateRandom Sample.happy 30)).
  reflexivity.
Defined.

(** *** Sign-out *)

(** C3, as amended.  However the revocation call settles, when [signOut]
    settles the user cell is the empty object, the token cell is the empty
    string and the default headers have no [Authorization] entry; [signOut]
    resolves whenever both store removals go through, and whenever it
    resolves both persisted entries are absent. *)
Theorem signOut_tears_down E w :
  let run := signOut E w in
  user (final run) = empty_object
  ∧ userToken (final run) = ""
  ∧ headers (final run) !! "Authorization" = None
  ∧ (removals_succeed E → settled run = Resolved tt)
  ∧ (settled run = Resolved tt →
     storage (final run) !! KEYS.TOKEN = None
     ∧ storage (final run) !! KEYS.USER = None).
Proof.
  intros run. destruct (signOut_teardown E w) as (_ & H). exact H.
Qed.

Lemma signOut_tears_down_witness :
  let run := signOut Sample.revocation_down Sample.signed_in in
  revokeAsync Sample.revocation_down "tok123" "cid" twitchEndpoints.revocation
  = Rejected Sample.network_error
  ∧ user (final run) = empty_object
  ∧ userToken (final run) = ""
  ∧ headers (final run) !! "Authorization" = None
  ∧ settled run = Resolved tt
  ∧ storage (final run) !! KEYS.TOKEN = None
  ∧ storage (final run) !! KEYS.USER = None.
Proof.
  destruct (signOut_tears_down Sample.revocation_down Sample.signed_in)
    as (Hu & Ht & Hh & Hres & Hst).
  assert (removals_succeed Sample.revocation_down) as Hrm by (split; reflexivity).
  destruct (Hst (Hres Hrm)) as (H1 & H2).
  split; [reflexivity|]. split; [exact Hu|]. split; [exact Ht|].
  split; [exact Hh|]. split; [exact (Hres Hrm)|]. split; [exact H1|exact H2].
Defined.

(** C3 fails as stated: the store refuses to remove the token entry;
    [signOut] rejects and both persisted entries are still there. *)
Lemma signOut_removal_fault_counterexample :
  let run := signOut Sample.token_entry_refused Sample.signed_in in
  (∃ e, settled run = Rejected e)
  ∧ storage (final run) !! KEYS.TOKEN = Some "tok123"
  ∧ storage (final run) !! KEYS.USER = Some (Sample.show Sample.alice)
  ∧ ¬ (user (final run) = empty_object
       ∧ userToken (final run) = ""
       ∧ storage (final run) !! KEYS.TOKEN = None
       ∧ storage (final run) !! KEYS.USER = None
       ∧ headers (final run) !! "Authorization" = None).
Proof.
  split_and!; try reflexivity.
  - by eexists.
  - intros (_ & _ & H & _). vm_compute in H. discriminate H.
Qed.

(** *** Start-up *)

(** C2.  At start-up with a persisted token [t] (not empty, as the hook
    tests it) and a persisted user record that parses to [u], when the
    validation call resolves with a body whose [login] equals the [login] of
    [u], the token cell is set to [t] and the user cell to [u], and the
    authorization flow is not called.  The validation call is made only once
    both reads have resolved. *)
Theorem startup_restores_session E w t su u data login :
  reads_succeed E →
  storage w !! KEYS.TOKEN = Some t →
  truthy_string t = true →
  storage w !! KEYS.USER = Some su →
  truthy_string su = true →
  JSON_parse E su = inr u →
  axios_get E validate_url ("OAuth " +:+ t) = Resolved data →
  get_prop data "login" = Some login →
  strict_eq login (get_prop_opt u "login") = true →
  let run := mount E w in
  settled run = Resolved tt
  ∧ userToken (final run) = t
  ∧ user (final run) = u
  ∧ Forall (λ p, is_StartAsync p.1 = false) (points run).
Proof.
  intros Hr Htok Ht Hsu Hsut Hu Hv Hl Heq run.
  assert (userLogged_of E (storage w !! KEYS.USER) = inr u) as Hul.
  { unfold userLogged_of. by rewrite Hsu, Hsut. }
  destruct (mount_matched E w t u data login Hr Htok
              (truthy_string_nonempty _ Ht) Hul Hv Hl Heq)
    as (Hpts & Ho & Htoken & Huser & _).
  by split_and!.
Qed.

Lemma startup_restores_session_witness :
  let run := mount Sample.happy Sample.relaunched in
  settled run = Resolved tt
  ∧ userToken (final run) = "tok123"
  ∧ user (final run) = Sample.alice
  ∧ Forall (λ p, is_StartAsync p.1 = false) (points run).
Proof.
  apply (startup_restores_session Sample.happy Sample.relaunched "tok123"
           (Sample.show Sample.alice) Sample.alice (Sample.valid "alice") (JStr "alice"));
    try reflexivity.
  split; reflexivity.
Defined.

(** C8, as amended.  At start-up with a persisted token (not empty) whose
    validation call rejects, on completion the user cell is the empty object
    and the token cell the empty string; start-up resolves whenever both
    store removals go through, and whenever it resolves both persisted
    entries have been removed. *)
Theorem startup_clears_invalid_session E w t u e :
  reads_succeed E →
  storage w !! KEYS.TOKEN = Some t →
  truthy_string t = true →
  userLogged_of E (storage w !! KEYS.USER) = inr u →
  axios_get E validate_url ("OAuth " +:+ t) = Rejected e →
  let run := mount E w in
  user (final run) = empty_object
  ∧ userToken (final run) = ""
  ∧ (removals_succeed E → settled run = Resolved tt)
  ∧ (settled run = Resolved tt →
     storage (final run) !! KEYS.TOKEN = None
     ∧ storage (final run) !! KEYS.USER = None).
Proof.
  intros Hr Htok Ht Hu Hv run.
  destruct (mount_invalid E w t u e Hr Htok (truthy_string_nonempty _ Ht) Hu Hv)
    as (_ & Huser & Htoken & _ & Hres & Hst).
  by split_and!.
Qed.

Lemma startup_clears_invalid_session_witness :
  let run := mount Sample.expired Sample.relaunched in
  user (final run) = empty_object
  ∧ userToken (final run) = ""
  ∧ settled run = Resolved tt
  ∧ storage (final run) !! KEYS.TOKEN = None
  ∧ storage (final run) !! KEYS.USER = None.
Proof.
  destruct (startup_clears_invalid_session Sample.expired Sample.relaunched "tok123"
              Sample.alice
              {| name := "Error"; message := "Request failed with status code 401" |})
    as (Hu & Ht & Hres & Hst); try reflexivity.
  { split; reflexivity. }
  assert (removals_succeed Sample.expired) as Hrm by (split; reflexivity).
  destruct (Hst (Hres Hrm)) as (H1 & H2).
  split; [exact Hu|]. split; [exact Ht|]. split; [exact (Hres Hrm)|].
  split; [exact H1|exact H2].
Defined.

(** C8 fails as stated: the validation call rejects and the store refuses
    to remove the token entry; both persisted entries are still there. *)
Lemma startup_removal_fault_counterexample :
  let E := Sample.expired_token_entry_refused in
  let run := mount E Sample.relaunched in
  storage Sample.relaunched !! KEYS.TOKEN = Some "tok123"
  ∧ (∃ e, axios_get E validate_url "OAuth tok123" = Rejected e)
  ∧ storage (final run) !! KEYS.TOKEN = Some "tok123"
  ∧ ¬ (user (final run) = empty_object
       ∧ userToken (final run) = ""
       ∧ storage (final run) !! KEYS.TOKEN = None
       ∧ storage (final run) !! KEYS.USER = None).
Proof.
  split_and!; try reflexivity.
  - by eexists.
  - intros (_ & _ & H & _). vm_compute in H. discriminate H.
Qed.

(** *** Invariants *)

(** C7, as amended.  When the servers answer in the shapes of their
    interfaces, user and token are both present or both absent on the first
    render, and each of [signIn], [signOut] and start-up keeps them so at
    every suspension point and when it settles. *)
Theorem operations_keep_pairing E :
  well_formed E →
  (∀ h st, paired (initial h st))
  ∧ keeps paired (signIn E)
  ∧ keeps paired (signOut E)
  ∧ keeps paired (mount E).
Proof.
  intros WF. split_and!.
  - done.
  - by apply signIn_paired.
  - by apply signOut_paired.
  - by apply mount_paired.
Qed.

Lemma operations_keep_pairing_witness :
  (∀ h st, paired (initial h st))
  ∧ keeps paired (signIn Sample.happy)
  ∧ keeps paired (signOut Sample.happy)
  ∧ keeps paired (mount Sample.happy).
Proof.
  apply (operations_keep_pairing Sample.happy). exact happy_well_formed.
Defined.

(** C7 fails as stated: the profile body has no record; from a world with
    neither user nor token, [signIn] ends with a token and no user. *)
Lemma signIn_no_record_counterexample :
  let run := signIn Sample.no_record Sample.signed_out in
  paired Sample.signed_out
  ∧ user (final run) = JUndefined
  ∧ userToken (final run) = "tok123"
  ∧ ¬ paired (final run).
Proof.
  split_and!; try reflexivity.
  unfold paired. vm_compute. discriminate.
Qed.

(** C9 at the failing input: the store refuses to remove the token entry
    inside [finally]; [signOut] rejects and [isLoggingOut] stays [true]. *)
Theorem signOut_flag_stuck_on_removal_fault :
  let run := signOut Sample.token_entry_refused Sample.signed_in in
  settled run = Rejected {| name := "Error"; message := "database or disk is full" |}
  ∧ isLoggingOut (final run) = true.
Proof. by vm_compute. Qed.

(* ===================================================================== *)
(** ** Further properties of the hook *)
(* ===================================================================== *)

(** *** What each operation can change *)

Section Inert.
Variable E : env.
Variable J : world → Prop.
Implicit Types (w : world).

(** Whatever survives the updates [signIn] performs survives [signIn]. *)
Lemma signIn_keeps :
  (∀ b w, J w → J (put_isLoggingIn b w)) →
  (∀ v w, J w → J (with_headers (insert "Authorization" v) w)) →
  (∀ u w, J w → J (put_user u w)) →
  (∀ t w, J w → J (put_userToken E t w)) →
  (∀ s w, J w → J (with_storage (insert KEYS.TOKEN s) w)) →
  (∀ s w, J w → J (with_storage (insert KEYS.USER s) w)) →
  keeps J (signIn E).
Proof.
  intros Hin Hauth Huser Htok Hst1 Hst2. unfold signIn.
  apply keeps_try_finally; [|apply keeps_modify; auto].
  apply keeps_try_catch; [|intros; apply keeps_throw].
  apply keeps_bind; [apply keeps_modify; auto|]. intros _.
  apply keeps_bind; [apply keeps_await; auto|]. intros response.
  destruct (String.eqb _ _); [|apply keeps_throw].
  apply keeps_bind; [apply keeps_modify; auto|]. intros _.
  apply keeps_try_catch; [|intros; apply keeps_throw].
  apply keeps_bind; [apply keeps_await; auto|]. intros data.
  apply keeps_bind; [apply keeps_read|]. intros rows.
  apply keeps_bind; [apply keeps_read|]. intros first.
  apply keeps_bind; [apply keeps_modify; auto|]. intros _.
  apply keeps_bind; [apply keeps_modify; auto|]. intros _.
  apply keeps_bind; [apply keeps_await; auto|]. intros _.
  destruct (JSON_stringify E first); apply keeps_await; auto.
Qed.

Lemma signOut_keeps :
  (∀ b w, J w → J (put_isLoggingOut b w)) →
  (∀ w, J w → J (with_headers (delete "Authorization") w)) →
  (∀ w, J w → J (put_user empty_object w)) →
  (∀ w, J w → J (put_userToken E "" w)) →
  (∀ w, J w → J (with_storage (delete KEYS.TOKEN) w)) →
  (∀ w, J w → J (with_storage (delete KEYS.USER) w)) →
  keeps J (signOut E).
Proof.
  intros Hout Hauth Huser Htok Hst1 Hst2. unfold signOut.
  apply keeps_try_finally.
  - apply keeps_try_catch; [|intros; apply keeps_ret].
    apply keeps_bind; [apply keeps_modify; auto|]. intros _.
    apply keeps_bind; [apply keeps_gets|]. intros token.
    apply keeps_bind; [apply keeps_await; auto|]. intros _. apply keeps_ret.
  - apply keeps_bind; [apply keeps_modify; auto|]. intros _.
    apply keeps_bind; [apply keeps_modify; auto|]. intros _.
    apply keeps_bind; [apply keeps_modify; auto|]. intros _.
    apply keeps_bind; [apply keeps_await; auto|]. intros _.
    apply keeps_bind; [apply keeps_await; auto|]. intros _.
    apply keeps_modify; auto.
Qed.

Lemma restore_keeps :
  (∀ b w, J w → J (put_isLoggingIn b w)) →
  (∀ u w, J w → J (put_user u w)) →
  (∀ t w, J w → J (put_userToken E t w)) →
  (∀ w, J w → J (with_storage (delete KEYS.TOKEN) w)) →
  (∀ w, J w → J (with_storage (delete KEYS.USER) w)) →
  keeps J (restore E).
Proof.
  intros Hin Huser Htok Hst1 Hst2. unfold restore.
  apply keeps_bind.
  { intros w Hw. apply wp_getItem; [done|]. by destruct (storage_fault E _). }
  intros storagedToken. apply keeps_bind.
  { intros w Hw. apply wp_getItem; [done|]. by destruct (storage_fault E _). }
  intros storagedUser. apply keeps_bind.
  { destruct (userLogged_of E storagedUser); [apply keeps_throw|apply keeps_ret]. }
  intros userLogged.
  destruct storagedToken as [t|]; [|apply keeps_ret].
  destruct (truthy_string t); [|apply keeps_ret].
  apply keeps_bind; [apply keeps_modify; auto|]. intros _.
  apply keeps_try_finally; [|apply keeps_modify; auto].
  apply keeps_try_catch.
  - apply keeps_bind; [apply keeps_await; auto|]. intros data.
    apply keeps_bind; [apply keeps_read|]. intros login.
    destruct (strict_eq _ _); [|apply keeps_ret].
    apply keeps_bind; [apply keeps_modify; auto|]. intros _. apply keeps_modify; auto.
  - intros _. apply keeps_bind; [apply keeps_modify; auto|]. intros _.
    apply keeps_bind; [apply keeps_modify; auto|]. intros _.
    apply keeps_bind; [apply keeps_await; auto|]. intros _.
    apply keeps_await; auto.
Qed.

Lemma mount_keeps :
  (∀ w, J w → J (header_sync E w)) →
  (∀ b w, J w → J (put_isLoggingIn b w)) →
  (∀ u w, J w → J (put_user u w)) →
  (∀ t w, J w → J (put_userToken E t w)) →
  (∀ w, J w → J (with_storage (delete KEYS.TOKEN) w)) →
  (∀ w, J w → J (with_storage (delete KEYS.USER) w)) →
  keeps J (mount E).
Proof.
  intros Hsync Hin Huser Htok Hst1 Hst2. unfold mount.
  apply keeps_bind; [apply keeps_modify; auto|]. intros _. by apply restore_keeps.
Qed.

End Inert.

Section Frames.
Variable E : env.
Implicit Types (w : world).

Lemma header_sync_other h w :
  h ≠ "Authorization" → h ≠ "Client-Id" →
  headers (header_sync E w) !! h = headers w !! h.
Proof.
  intros H1 H2. unfold header_sync. destruct (truthy_string _); cbn.
  - by rewrite !lookup_insert_ne.
  - by rewrite lookup_insert_ne.
Qed.

Lemma put_userToken_other h t w :
  h ≠ "Authorization" → h ≠ "Client-Id" →
  headers (put_userToken E t w) !! h = headers w !! h.
Proof.
  intros H1 H2. unfold put_userToken. destruct (String.eqb _ _); [done|].
  by rewrite header_sync_other.
Qed.

Lemma header_sync_isLoggingIn w : isLoggingIn (header_sync E w) = isLoggingIn w.
Proof. unfold header_sync. by case_match. Qed.

Lemma header_sync_isLoggingOut w : isLoggingOut (header_sync E w) = isLoggingOut w.
Proof. unfold header_sync. by case_match. Qed.

End Frames.

(** *** More of [signIn] *)

Section MoreSignIn.
Variable E : env.
Implicit Types (w : world) (r : StartAsyncResponse).

(** Setting the token leaves a bearer header that already carries it. *)
Lemma put_userToken_bearer t w :
  headers w !! "Authorization" = Some ("Bearer " +:+ t) →
  headers (put_userToken E t w) !! "Authorization" = Some ("Bearer " +:+ t).
Proof.
  intros Hw. unfold put_userToken, header_sync.
  destruct (String.eqb (userToken w) t); [done|]. cbn.
  destruct (truthy_string t); cbn.
  - by rewrite lookup_insert_eq.
  - by rewrite lookup_insert_ne.
Qed.

Lemma signIn_flow_thrown w e :
  startAsync E (authUrl E) = Rejected e →
  signIn E w = ([(StartAsync (authUrl E), put_isLoggingIn true w)],
                Rejected (new_Error_of e), put_isLoggingIn false w).
Proof.
  intros H. unfold signIn, setIsLoggingIn.
  unfold mbind, async_bind, bind, try_finally, try_catch, throw, modify, await.
  rewrite H. reflexivity.
Qed.

Lemma signIn_flow_refused w r :
  startAsync E (authUrl E) = Resolved r →
  String.eqb (type r) "success" = false →
  signIn E w = ([(StartAsync (authUrl E), put_isLoggingIn true w)],
                Rejected (new_Error_of (new_Error "Access denied")),
                put_isLoggingIn false w).
Proof.
  intros H Ht. unfold signIn, setIsLoggingIn.
  unfold mbind, async_bind, bind, try_finally, try_catch, throw, modify, await.
  rewrite H. cbv beta iota. rewrite Ht. reflexivity.
Qed.

Lemma signIn_body_unreadable w r data :
  startAsync E (authUrl E) = Resolved r →
  type r = "success" →
  api_get E "/users" (CLIENT_ID E) ("Bearer " +:+ access_token (params r)) = Resolved data →
  first_record data = None →
  wp (signIn E) (λ c _, is_SetItem c = false)
     (λ o w', o = Rejected (new_Error_of (new_Error_of (TypeError E)))
              ∧ storage w' = storage w
              ∧ user w' = user w
              ∧ userToken w' = userToken w
              ∧ headers w' !! "Authorization"
                = Some ("Bearer " +:+ access_token (params r))) w.
Proof.
  intros Hs Ht Hu Hnone. apply String.eqb_eq in Ht. unfold first_record in Hnone.
  unfold signIn, setIsLoggingIn, set_header. wp_struct. wp_call Hs.
  rewrite Ht. wp_struct. wp_call Hu. wp_struct. apply wp_read.
  destruct (get_prop data "data") as [rows|]; wp_struct.
  - apply wp_read. rewrite Hnone. wp_struct.
    split_and!; try done. cbn. by rewrite lookup_insert_eq.
  - split_and!; try done. cbn. by rewrite lookup_insert_eq.
Qed.

(** Whenever [signIn] resolves, the session is in memory, in the store and
    in the default headers. *)
Lemma signIn_resolved w :
  wp (signIn E) (λ _ _, True)
     (λ o w', o = Resolved tt →
              user w' ≠ JUndefined
              ∧ storage w' !! KEYS.TOKEN = Some (userToken w')
              ∧ storage w' !! KEYS.USER = JSON_stringify E (user w')
              ∧ headers w' !! "Authorization" = Some ("Bearer " +:+ userToken w')
              ∧ isLoggingIn w' = false) w.
Proof.
  unfold signIn, setIsLoggingIn, set_header, setUser, setUserToken.
  wp_struct. apply wp_await; [done|].
  destruct (startAsync E (authUrl E)) as [r|e]; lazy beta iota; [|by wp_struct].
  destruct (String.eqb (type r) "success"); [|by wp_struct].
  wp_struct. apply wp_await; [done|].
  destruct (api_get E _ _ _) as [data|e]; lazy beta iota; [|by wp_struct].
  wp_struct. apply wp_read.
  destruct (get_prop data "data") as [rows|]; [|by wp_struct]. wp_struct.
  apply wp_read. destruct (index0 rows) as [first|]; [|by wp_struct]. wp_struct.
  apply wp_setItem; [done|].
  destruct (storage_fault E (SetItem KEYS.TOKEN _)); [by wp_struct|]. wp_struct.
  destruct (JSON_stringify E first) as [text|] eqn:Htext.
  2: { apply wp_await; [done|]. by wp_struct. }
  apply wp_setItem; [done|].
  destruct (storage_fault E (SetItem KEYS.USER _)); [by wp_struct|]. wp_struct.
  intros _. cbn. autorewrite with world. split_and!; try done.
  - intros Hf. rewrite ?put_userToken_user in Hf. cbn in Hf. subst first.
    discriminate Htext.
  - by rewrite lookup_insert_ne, lookup_insert_eq.
  - by rewrite lookup_insert_eq.
  - apply put_userToken_bearer. cbn. by rewrite lookup_insert_eq.
Qed.

(** A refused write comes after the in-memory commit. *)
Lemma signIn_token_entry_refused w r data first e :
  startAsync E (authUrl E) = Resolved r →
  type r = "success" →
  api_get E "/users" (CLIENT_ID E) ("Bearer " +:+ access_token (params r)) = Resolved data →
  first_record data = Some first →
  storage_fault E (SetItem KEYS.TOKEN (Some (access_token (params r)))) = Some e →
  wp (signIn E) (λ _ _, True)
     (λ o w', o = Rejected (new_Error_of (new_Error_of e))
              ∧ user w' = first
              ∧ userToken w' = access_token (params r)
              ∧ storage w' = storage w) w.
Proof.
  intros Hs Ht Hu Hfirst Hw1. apply String.eqb_eq in Ht. unfold first_record in Hfirst.
  destruct (get_prop data "data") as [rows|] eqn:Hrows; [|done].
  unfold signIn, setIsLoggingIn, set_header, setUser, setUserToken. wp_struct. wp_call Hs.
  rewrite Ht. wp_struct. wp_call Hu. wp_struct.
  apply wp_read. rewrite Hrows. wp_struct.
  apply wp_read. rewrite Hfirst. wp_struct.
  apply wp_setItem; [done|]. rewrite Hw1. wp_struct.
  cbn. autorewrite with world. done.
Qed.

Lemma signIn_user_entry_refused w r data first text e :
  startAsync E (authUrl E) = Resolved r →
  type r = "success" →
  api_get E "/users" (CLIENT_ID E) ("Bearer " +:+ access_token (params r)) = Resolved data →
  first_record data = Some first →
  JSON_stringify E first = Some text →
  storage_fault E (SetItem KEYS.TOKEN (Some (access_token (params r)))) = None →
  storage_fault E (SetItem KEYS.USER (Some text)) = Some e →
  wp (signIn E) (λ _ _, True)
     (λ o w', o = Rejected (new_Error_of (new_Error_of e))
              ∧ user w' = first
              ∧ userToken w' = access_token (params r)
              ∧ storage w' !! KEYS.TOKEN = Some (access_token (params r))
              ∧ storage w' !! KEYS.USER = storage w !! KEYS.USER) w.
Proof.
  intros Hs Ht Hu Hfirst Htext Hw1 Hw2. apply String.eqb_eq in Ht.
  unfold first_record in Hfirst.
  destruct (get_prop data "data") as [rows|] eqn:Hrows; [|done].
  unfold signIn, setIsLoggingIn, set_header, setUser, setUserToken. wp_struct. wp_call Hs.
  rewrite Ht. wp_struct. wp_call Hu. wp_struct.
  apply wp_read. rewrite Hrows. wp_struct.
  apply wp_read. rewrite Hfirst. wp_struct.
  apply wp_setItem; [done|]. rewrite Hw1. wp_struct.
  rewrite Htext. apply wp_setItem; [done|]. rewrite Hw2. wp_struct.
  cbn. autorewrite with world. split_and!; try done.
  - by rewrite lookup_insert_eq.
  - by rewrite lookup_insert_ne.
Qed.

End MoreSignIn.

(** *** More of [signOut] *)

Section MoreSignOut.
Variable E : env.
Implicit Types (w : world).

(** The [try] block: one call, with the token held at the call of
    [signOut]; it resolves whatever the revocation does. *)
Lemma signOut_try w :
  try_catch
    (setIsLoggingOut true ≫= λ _,
     gets userToken ≫= λ token,
     await (RevokeAsync token (CLIENT_ID E) twitchEndpoints.revocation)
           (revokeAsync E token (CLIENT_ID E) twitchEndpoints.revocation) id ≫= λ _,
     ret tt)
    (λ _, ret tt) w
  = ([(RevokeAsync (userToken w) (CLIENT_ID E) twitchEndpoints.revocation,
       put_isLoggingOut true w)],
     Resolved tt, put_isLoggingOut true w).
Proof.
  unfold setIsLoggingOut, mbind, async_bind, bind, try_catch, modify, gets, await, ret.
  cbn. by destruct (revokeAsync E _ _ _).
Qed.

(** The calls of the [finally] block are removals, made with the session
    already cleared from memory. *)
Lemma signOut_finally_calls w :
  wp (setUser empty_object ≫= λ _,
      setUserToken E "" ≫= λ _,
      delete_header "Authorization" ≫= λ _,
      AsyncStorage_removeItem E KEYS.TOKEN ≫= λ _,
      AsyncStorage_removeItem E KEYS.USER ≫= λ _,
      setIsLoggingOut false)
     (λ c w', is_RemoveItem c = true ∧ user w' = empty_object ∧ userToken w' = "")
     (λ _ _, True) w.
Proof.
  unfold setIsLoggingOut, setUser, setUserToken, delete_header.
  wp_struct. apply wp_removeItem; [cbn; by autorewrite with world|].
  destruct (storage_fault E (RemoveItem KEYS.TOKEN)); [done|]. wp_struct.
  apply wp_removeItem; [cbn; by autorewrite with world|].
  by destruct (storage_fault E (RemoveItem KEYS.USER)); wp_struct.
Qed.

Lemma signOut_calls w :
  ∃ rest,
    points (signOut E w)
    = (RevokeAsync (userToken w) (CLIENT_ID E) twitchEndpoints.revocation,
       put_isLoggingOut true w) :: rest
    ∧ Forall (λ p, is_RemoveItem p.1 = true
                   ∧ user p.2 = empty_object ∧ userToken p.2 = "") rest.
Proof.
  destruct (signOut_finally_calls (put_isLoggingOut true w)) as [Hrest _].
  unfold signOut, try_finally. rewrite signOut_try.
  unfold points in *.
  destruct ((setUser empty_object ≫= _) (put_isLoggingOut true w))
    as [[rest [[]|e]] w']; cbn in *; by exists rest.
Qed.

End MoreSignOut.

Lemma signOut_revocation_blind E w r1 r2 :
  signOut (revoking E r1) w = signOut (revoking E r2) w.
Proof. destruct r1, r2; reflexivity. Qed.

(** *** More of start-up *)

Section MoreRestore.
Variable E : env.
Implicit Types (w : world).

Lemma restore_idle w u :
  reads_succeed E →
  token_usable (storage w !! KEYS.TOKEN) = false →
  userLogged_of E (storage w !! KEYS.USER) = inr u →
  wp (restore E) (λ c _, is_GetItem c = true)
     (λ o w', o = Resolved tt ∧ w' = w) w.
Proof.
  intros [Hr1 Hr2] Htok Hu. unfold restore. wp_struct.
  apply wp_getItem; [done|]. rewrite Hr1. wp_struct.
  apply wp_getItem; [done|]. rewrite Hr2. wp_struct.
  apply wp_lift. rewrite Hu. wp_struct.
  destruct (storage w !! KEYS.TOKEN) as [t|]; cbn in Htok; [rewrite Htok|];
    by apply wp_ret.
Qed.

Lemma restore_unparsable w e :
  reads_succeed E →
  userLogged_of E (storage w !! KEYS.USER) = inl e →
  wp (restore E) (λ c _, is_GetItem c = true)
     (λ o w', o = Rejected e ∧ w' = w) w.
Proof.
  intros [Hr1 Hr2] Hu. unfold restore. wp_struct.
  apply wp_getItem; [done|]. rewrite Hr1. wp_struct.
  apply wp_getItem; [done|]. rewrite Hr2. wp_struct.
  apply wp_lift. by rewrite Hu.
Qed.

Lemma restore_mismatch w t u data login :
  reads_succeed E →
  storage w !! KEYS.TOKEN = Some t →
  truthy_string t = true →
  userLogged_of E (storage w !! KEYS.USER) = inr u →
  axios_get E validate_url ("OAuth " +:+ t) = Resolved data →
  get_prop data "login" = Some login →
  strict_eq login (get_prop_opt u "login") = false →
  wp (restore E) (λ c _, is_RemoveItem c = false ∧ is_SetItem c = false)
     (λ o w', o = Resolved tt ∧ w' = put_isLoggingIn false w) w.
Proof.
  intros [Hr1 Hr2] Htok Ht Hu Hv Hlogin Hne.
  unfold restore, setIsLoggingIn. wp_struct.
  apply wp_getItem; [done|]. rewrite Hr1, Htok. wp_struct.
  apply wp_getItem; [done|]. rewrite Hr2. wp_struct.
  apply wp_lift. rewrite Hu. wp_struct.
  rewrite Ht. wp_struct. wp_call Hv. wp_struct.
  apply wp_read. rewrite Hlogin. wp_struct. rewrite Hne. by wp_struct.
Qed.

Lemma restore_body_unreadable w t u data :
  reads_succeed E →
  storage w !! KEYS.TOKEN = Some t →
  truthy_string t = true →
  userLogged_of E (storage w !! KEYS.USER) = inr u →
  axios_get E validate_url ("OAuth " +:+ t) = Resolved data →
  get_prop data "login" = None →
  wp (restore E) (λ _ _, True)
     (λ o w', user w' = empty_object ∧ userToken w' = "" ∧ isLoggingIn w' = false
              ∧ (removals_succeed E → o = Resolved tt)
              ∧ (o = Resolved tt →
                 storage w' !! KEYS.TOKEN = None
                 ∧ storage w' !! KEYS.USER = None)) w.
Proof.
  intros [Hr1 Hr2] Htok Ht Hu Hv Hlogin.
  unfold restore, setIsLoggingIn, setUser, setUserToken. wp_struct.
  apply wp_getItem; [done|]. rewrite Hr1, Htok. wp_struct.
  apply wp_getItem; [done|]. rewrite Hr2. lazy beta iota.
  wp_struct. apply wp_lift. rewrite Hu. wp_struct.
  rewrite Ht. wp_struct. wp_call Hv. wp_struct.
  apply wp_read. rewrite Hlogin. wp_struct.
  apply wp_removeItem; [done|].
  destruct (storage_fault E (RemoveItem KEYS.TOKEN)) as [e1|] eqn:H1.
  { wp_struct. cbn. autorewrite with world. split_and!; try done.
    intros [? _]. congruence. }
  wp_struct. apply wp_removeItem; [done|].
  destruct (storage_fault E (RemoveItem KEYS.USER)) as [e2|] eqn:H2.
  { wp_struct. cbn. autorewrite with world. split_and!; try done.
    intros [_ ?]. congruence. }
  wp_struct. cbn. autorewrite with world. split_and!; try done. intros _. split.
  - by rewrite lookup_delete_ne, lookup_delete_eq.
  - by rewrite lookup_delete_eq.
Qed.

(** A restored session reaches the default headers through the effect. *)
Lemma restore_matched_headers w t u data login :
  reads_succeed E →
  storage w !! KEYS.TOKEN = Some t →
  truthy_string t = true →
  userLogged_of E (storage w !! KEYS.USER) = inr u →
  axios_get E validate_url ("OAuth " +:+ t) = Resolved data →
  get_prop data "login" = Some login →
  strict_eq login (get_prop_opt u "login") = true →
  headers w !! "Client-Id" = Some (CLIENT_ID E) →
  (userToken w = t → headers w !! "Authorization" = Some ("Bearer " +:+ t)) →
  wp (restore E) (λ _ _, True)
     (λ o w', headers w' !! "Authorization" = Some ("Bearer " +:+ t)
              ∧ headers w' !! "Client-Id" = Some (CLIENT_ID E)) w.
Proof.
  intros [Hr1 Hr2] Htok Ht Hu Hv Hlogin Heq Hcid Hauth.
  unfold restore, setIsLoggingIn, setUser, setUserToken. wp_struct.
  apply wp_getItem; [done|]. rewrite Hr1, Htok. wp_struct.
  apply wp_getItem; [done|]. rewrite Hr2. wp_struct.
  apply wp_lift. rewrite Hu. wp_struct.
  rewrite Ht. wp_struct. wp_call Hv. wp_struct.
  apply wp_read. rewrite Hlogin. wp_struct. rewrite Heq. wp_struct.
  cbn. unfold put_userToken, header_sync. cbn.
  destruct (String.eqb (userToken w) t) eqn:Hsame; cbn.
  - apply String.eqb_eq in Hsame. by split; [apply Hauth|].
  - rewrite Ht. cbn. rewrite lookup_insert_eq.
    by rewrite lookup_insert_ne, lookup_insert_eq.
Qed.

Lemma header_sync_Client_Id w :
  headers (header_sync E w) !! "Client-Id" = Some (CLIENT_ID E).
Proof.
  unfold header_sync. destruct (truthy_string _); cbn.
  - by rewrite lookup_insert_ne, lookup_insert_eq.
  - by rewrite lookup_insert_eq.
Qed.

Lemma header_sync_Authorization w :
  truthy_string (userToken w) = true →
  headers (header_sync E w) !! "Authorization" = Some ("Bearer " +:+ userToken w).
Proof. intros H. unfold header_sync. rewrite H. cbn. by rewrite lookup_insert_eq. Qed.

Lemma put_userToken_Client_Id t w :
  headers w !! "Client-Id" = Some (CLIENT_ID E) →
  headers (put_userToken E t w) !! "Client-Id" = Some (CLIENT_ID E).
Proof.
  intros H. unfold put_userToken. destruct (String.eqb _ _); [done|].
  apply header_sync_Client_Id.
Qed.

End MoreRestore.

(** *** The properties *)

(** X1.  When the authorization session cannot be started, [signIn] makes
    that one call, rejects with the error made from the one thrown, and
    leaves user, token, headers and store as they were; [isLoggingIn] is
    [true] during the call and [false] after. *)
Theorem signIn_thrown_flow_changes_nothing E w e :
  startAsync E (authUrl E) = Rejected e →
  let run := signIn E w in
  points run = [(StartAsync (authUrl E), put_isLoggingIn true w)]
  ∧ settled run = Rejected (new_Error_of e)
  ∧ final run = put_isLoggingIn false w.
Proof. intros H run. unfold run. by rewrite (signIn_flow_thrown E w e H). Qed.

Lemma signIn_thrown_flow_changes_nothing_witness :
  let run := signIn Sample.flow_broken Sample.signed_in in
  points run = [(StartAsync (authUrl Sample.flow_broken),
                 put_isLoggingIn true Sample.signed_in)]
  ∧ settled run
    = Rejected (new_Error_of {| name := "Error"; message := "Cannot start a new task" |})
  ∧ final run = put_isLoggingIn false Sample.signed_in.
Proof.
  apply (signIn_thrown_flow_changes_nothing Sample.flow_broken Sample.signed_in).
  reflexivity.
Defined.

(** X2.  When the flow answers with a type other than [success], [signIn]
    makes no call but the authorization one and leaves user, token, headers
    and store as they were: no [Authorization] header is written. *)
Theorem signIn_refused_flow_changes_nothing E w r :
  startAsync E (authUrl E) = Resolved r →
  String.eqb (type r) "success" = false →
  let run := signIn E w in
  points run = [(StartAsync (authUrl E), put_isLoggingIn true w)]
  ∧ final run = put_isLoggingIn false w.
Proof. intros H Ht run. unfold run. by rewrite (signIn_flow_refused E w r H Ht). Qed.

Lemma signIn_refused_flow_changes_nothing_witness :
  let run := signIn Sample.dismissed Sample.signed_out in
  points run = [(StartAsync (authUrl Sample.dismissed),
                 put_isLoggingIn true Sample.signed_out)]
  ∧ final run = put_isLoggingIn false Sample.signed_out.
Proof.
  apply (signIn_refused_flow_changes_nothing Sample.dismissed Sample.signed_out
           (Sample.response "dismiss" "" "")); reflexivity.
Defined.

(** X3.  When the profile request resolves with a body from which
    [data.data[0]] cannot be read (the body or its [data] is [null] or
    [undefined]), [signIn] rejects with the doubly converted [TypeError];
    user, token and store are as they were, no write was attempted, and the
    [Authorization] header carries the new bearer token. *)
Theorem signIn_unreadable_body_commits_nothing E w r data :
  startAsync E (authUrl E) = Resolved r →
  type r = "success" →
  api_get E "/users" (CLIENT_ID E) ("Bearer " +:+ access_token (params r)) = Resolved data →
  first_record data = None →
  let run := signIn E w in
  settled run = Rejected (new_Error_of (new_Error_of (TypeError E)))
  ∧ user (final run) = user w
  ∧ userToken (final run) = userToken w
  ∧ storage (final run) = storage w
  ∧ headers (final run) !! "Authorization" = Some ("Bearer " +:+ access_token (params r))
  ∧ Forall (λ p, is_SetItem p.1 = false) (points run).
Proof.
  intros Hs Ht Hu Hnone run.
  destruct (signIn_body_unreadable E w r data Hs Ht Hu Hnone)
    as (Hpts & Ho & Hst & Huser & Htoken & Hh).
  by split_and!.
Qed.

Lemma signIn_unreadable_body_commits_nothing_witness :
  let run := signIn Sample.profile_null Sample.signed_out in
  settled run = Rejected (new_Error_of (new_Error_of (TypeError Sample.profile_null)))
  ∧ user (final run) = empty_object
  ∧ userToken (final run) = ""
  ∧ storage (final run) = ∅
  ∧ headers (final run) !! "Authorization" = Some "Bearer tok123"
  ∧ Forall (λ p, is_SetItem p.1 = false) (points run).
Proof.
  apply (signIn_unreadable_body_commits_nothing Sample.profile_null Sample.signed_out
           (Sample.response "success" "tok123" "q7XkP2mZr9LbT4vNc8HsWd1YfGu3Ae") JNull);
    reflexivity.
Defined.

(** X4.  Whenever [signIn] resolves, whatever the outside answered, the
    user cell is not [undefined], the token entry of the store holds the
    in-memory token, the user entry holds the serialized in-memory user, the
    [Authorization] header carries the in-memory token, and [isLoggingIn]
    is [false]. *)
Theorem signIn_resolved_means_persisted E w :
  let run := signIn E w in
  settled run = Resolved tt →
  user (final run) ≠ JUndefined
  ∧ storage (final run) !! KEYS.TOKEN = Some (userToken (final run))
  ∧ storage (final run) !! KEYS.USER = JSON_stringify E (user (final run))
  ∧ headers (final run) !! "Authorization" = Some ("Bearer " +:+ userToken (final run))
  ∧ isLoggingIn (final run) = false.
Proof. intros run Ho. destruct (signIn_resolved E w) as [_ H]. by apply H. Qed.

Lemma signIn_resolved_means_persisted_witness :
  let run := signIn Sample.happy Sample.signed_out in
  user (final run) ≠ JUndefined
  ∧ storage (final run) !! KEYS.TOKEN = Some (userToken (final run))
  ∧ storage (final run) !! KEYS.USER = JSON_stringify Sample.happy (user (final run))
  ∧ headers (final run) !! "Authorization" = Some ("Bearer " +:+ userToken (final run))
  ∧ isLoggingIn (final run) = false.
Proof.
  apply (signIn_resolved_means_persisted Sample.happy Sample.signed_out).
  reflexivity.
Defined.

(** X5.  When the store refuses the token entry, [signIn] rejects with the
    doubly converted store error after the in-memory commit: user and token
    cells hold the new session while the store is as it was, so the session
    does not survive a relaunch. *)
Theorem signIn_refused_token_entry E w r data first e :
  startAsync E (authUrl E) = Resolved r →
  type r = "success" →
  api_get E "/users" (CLIENT_ID E) ("Bearer " +:+ access_token (params r)) = Resolved data →
  first_record data = Some first →
  storage_fault E (SetItem KEYS.TOKEN (Some (access_token (params r)))) = Some e →
  let run := signIn E w in
  settled run = Rejected (new_Error_of (new_Error_of e))
  ∧ user (final run) = first
  ∧ userToken (final run) = access_token (params r)
  ∧ storage (final run) = storage w.
Proof.
  intros Hs Ht Hu Hfirst Hw1 run.
  by destruct (signIn_token_entry_refused E w r data first e Hs Ht Hu Hfirst Hw1)
    as (_ & H).
Qed.

Lemma signIn_refused_token_entry_witness :
  let run := signIn Sample.token_entry_refused Sample.signed_out in
  settled run
  = Rejected (new_Error_of (new_Error_of
                {| name := "Error"; message := "database or disk is full" |}))
  ∧ user (final run) = Sample.alice
  ∧ userToken (final run) = "tok123"
  ∧ storage (final run) = ∅.
Proof.
  apply (signIn_refused_token_entry Sample.token_entry_refused Sample.signed_out
           (Sample.response "success" "tok123" "q7XkP2mZr9LbT4vNc8HsWd1YfGu3Ae")
           (Sample.profile [Sample.alice]) Sample.alice); reflexivity.
Defined.

(** X6.  When the store accepts the token entry and refuses the user entry,
    [signIn] rejects with the session in memory and half of it in the store:
    the token entry holds the new token and the user entry is what it
    was. *)
Theorem signIn_refused_user_entry E w r data first text e :
  startAsync E (authUrl E) = Resolved r →
  type r = "success" →
  api_get E "/users" (CLIENT_ID E) ("Bearer " +:+ access_token (params r)) = Resolved data →
  first_record data = Some first →
  JSON_stringify E first = Some text →
  storage_fault E (SetItem KEYS.TOKEN (Some (access_token (params r)))) = None →
  storage_fault E (SetItem KEYS.USER (Some text)) = Some e →
  let run := signIn E w in
  settled run = Rejected (new_Error_of (new_Error_of e))
  ∧ user (final run) = first
  ∧ userToken (final run) = access_token (params r)
  ∧ storage (final run) !! KEYS.TOKEN = Some (access_token (params r))
  ∧ storage (final run) !! KEYS.USER = storage w !! KEYS.USER.
Proof.
  intros Hs Ht Hu Hfirst Htext Hw1 Hw2 run.
  by destruct (signIn_user_entry_refused E w r data first text e
                 Hs Ht Hu Hfirst Htext Hw1 Hw2) as (_ & H).
Qed.

Lemma signIn_refused_user_entry_witness :
  let run := signIn Sample.user_entry_refused Sample.signed_out in
  settled run
  = Rejected (new_Error_of (new_Error_of
                {| name := "Error"; message := "database or disk is full" |}))
  ∧ user (final run) = Sample.alice
  ∧ userToken (final run) = "tok123"
  ∧ storage (final run) !! KEYS.TOKEN = Some "tok123"
  ∧ storage (final run) !! KEYS.USER = None.
Proof.
  apply (signIn_refused_user_entry Sample.user_entry_refused Sample.signed_out
           (Sample.response "success" "tok123" "q7XkP2mZr9LbT4vNc8HsWd1YfGu3Ae")
           (Sample.profile [Sample.alice]) Sample.alice (Sample.show Sample.alice));
    reflexivity.
Defined.

(** X7.  The hook writes two store entries and two headers and nothing
    else: any other key of the store and any other default header is, at
    every suspension point and at the end of [signIn], [signOut] and
    start-up, what it was at the beginning. *)
Theorem operations_touch_only_their_entries E w k h :
  String.eqb k KEYS.TOKEN = false →
  String.eqb k KEYS.USER = false →
  String.eqb h "Authorization" = false →
  String.eqb h "Client-Id" = false →
  left_alone w k h (signIn E w)
  ∧ left_alone w k h (signOut E w)
  ∧ left_alone w k h (mount E w).
Proof.
  intros Hk1 Hk2 Hh1 Hh2. apply String.eqb_neq in Hk1, Hk2, Hh1, Hh2.
  set (untouched := λ w' : world,
         storage w' !! k = storage w !! k ∧ headers w' !! h = headers w !! h).
  assert (untouched w) as Hw by done.
  assert (∀ t w', untouched w' → untouched (put_userToken E t w')) as Htok.
  { intros t w' [H1 H2]. unfold untouched.
    by rewrite put_userToken_storage, put_userToken_other. }
  assert (keeps untouched (signIn E)) as H1.
  { apply signIn_keeps; try done; intros ? w' [? ?]; split; cbn; try done;
      by rewrite lookup_insert_ne. }
  assert (keeps untouched (signOut E)) as H2.
  { apply signOut_keeps; try done; try (apply Htok); intros w' [? ?]; split; cbn;
      try done; by rewrite lookup_delete_ne. }
  assert (keeps untouched (mount E)) as H3.
  { apply mount_keeps; try done; intros w' [? ?]; split; cbn; try done.
    - by rewrite header_sync_storage.
    - by rewrite header_sync_other.
    - by rewrite lookup_delete_ne.
    - by rewrite lookup_delete_ne. }
  unfold left_alone. split_and!.
  - exact (proj1 (H1 w Hw)).
  - exact (proj1 (proj2 (H1 w Hw))).
  - exact (proj2 (proj2 (H1 w Hw))).
  - exact (proj1 (H2 w Hw)).
  - exact (proj1 (proj2 (H2 w Hw))).
  - exact (proj2 (proj2 (H2 w Hw))).
  - exact (proj1 (H3 w Hw)).
  - exact (proj1 (proj2 (H3 w Hw))).
  - exact (proj2 (proj2 (H3 w Hw))).
Qed.

Lemma operations_touch_only_their_entries_witness :
  left_alone Sample.signed_in "@twitch:theme" "Accept"
    (signIn Sample.happy Sample.signed_in)
  ∧ left_alone Sample.signed_in "@twitch:theme" "Accept"
      (signOut Sample.happy Sample.signed_in)
  ∧ left_alone Sample.signed_in "@twitch:theme" "Accept"
      (mount Sample.happy Sample.signed_in).
Proof.
  apply (operations_touch_only_their_entries Sample.happy Sample.signed_in
           "@twitch:theme" "Accept"); reflexivity.
Defined.

(** X8.  Each operation leaves the other in-flight flag alone: at every
    suspension point and at the end, [isLoggingOut] is what it was in
    [signIn] and in start-up, and [isLoggingIn] is what it was in
    [signOut]. *)
Theorem operations_leave_other_flag E w :
  (Forall (λ p, isLoggingOut p.2 = isLoggingOut w) (points (signIn E w))
   ∧ isLoggingOut (final (signIn E w)) = isLoggingOut w)
  ∧ (Forall (λ p, isLoggingIn p.2 = isLoggingIn w) (points (signOut E w))
     ∧ isLoggingIn (final (signOut E w)) = isLoggingIn w)
  ∧ (Forall (λ p, isLoggingOut p.2 = isLoggingOut w) (points (mount E w))
     ∧ isLoggingOut (final (mount E w)) = isLoggingOut w).
Proof.
  split_and!.
  - apply (signIn_keeps E (λ w', isLoggingOut w' = isLoggingOut w)); try done.
    intros t w' H. by rewrite put_userToken_isLoggingOut.
  - apply (signIn_keeps E (λ w', isLoggingOut w' = isLoggingOut w)); try done.
    intros t w' H. by rewrite put_userToken_isLoggingOut.
  - apply (signOut_keeps E (λ w', isLoggingIn w' = isLoggingIn w)); try done.
    intros w' H. by rewrite put_userToken_isLoggingIn.
  - apply (signOut_keeps E (λ w', isLoggingIn w' = isLoggingIn w)); try done.
    intros w' H. by rewrite put_userToken_isLoggingIn.
  - apply (mount_keeps E (λ w', isLoggingOut w' = isLoggingOut w)); try done.
    + intros w' H. by rewrite header_sync_isLoggingOut.
    + intros t w' H. by rewrite put_userToken_isLoggingOut.
  - apply (mount_keeps E (λ w', isLoggingOut w' = isLoggingOut w)); try done.
    + intros w' H. by rewrite header_sync_isLoggingOut.
    + intros t w' H. by rewrite put_userToken_isLoggingOut.
Qed.

(** X9.  The first call of [signOut] is the revocation, made with the token
    held when [signOut] was called, the client id and the revocation
    endpoint, while the session is still in memory and [isLoggingOut] is
    [true]; every later call is a store removal, made once user and token
    cells have been cleared. *)
Theorem signOut_call_order E w :
  ∃ rest,
    points (signOut E w)
    = (RevokeAsync (userToken w) (CLIENT_ID E) twitchEndpoints.revocation,
       put_isLoggingOut true w) :: rest
    ∧ Forall (λ p, is_RemoveItem p.1 = true
                   ∧ user p.2 = empty_object ∧ userToken p.2 = "") rest.
Proof. apply signOut_calls. Qed.

(** X10.  The answer of the revocation endpoint has no effect on
    [signOut]: two runs that differ only in it have the same suspension
    points, settle alike and end in the same world. *)
Theorem signOut_ignores_revocation_result E w r1 r2 :
  signOut (revoking E r1) w = signOut (revoking E r2) w.
Proof. apply signOut_revocation_blind. Qed.

(** X11.  At start-up with no persisted token, or an empty one, the hook
    only reads the two entries: it resolves, the validation endpoint is not
    called, [isLoggingIn] is never raised, and the world is as the header
    effect left it. *)
Theorem startup_without_token_is_idle E w u :
  reads_succeed E →
  token_usable (storage w !! KEYS.TOKEN) = false →
  userLogged_of E (storage w !! KEYS.USER) = inr u →
  let run := mount E w in
  settled run = Resolved tt
  ∧ final run = header_sync E w
  ∧ Forall (λ p, is_GetItem p.1 = true) (points run).
Proof.
  intros Hr Htok Hu run.
  rewrite <- (header_sync_storage E w) in Htok, Hu.
  destruct (wp_mount E _ _ w (restore_idle E (header_sync E w) u Hr Htok Hu))
    as (Hpts & Ho & Hw).
  by split_and!.
Qed.

Lemma startup_without_token_is_idle_witness :
  let run := mount Sample.happy Sample.signed_out in
  settled run = Resolved tt
  ∧ final run = header_sync Sample.happy Sample.signed_out
  ∧ Forall (λ p, is_GetItem p.1 = true) (points run).
Proof.
  apply (startup_without_token_is_idle Sample.happy Sample.signed_out JNull);
    try reflexivity.
  split; reflexivity.
Defined.

(** X12.  At start-up with a persisted user entry that [JSON.parse]
    refuses, the start-up promise rejects with the parse error before the
    token is looked at: the validation endpoint is not called, nothing is
    removed from the store, and the world is as the header effect left
    it. *)
Theorem startup_unparsable_user_rejects E w e :
  reads_succeed E →
  userLogged_of E (storage w !! KEYS.USER) = inl e →
  let run := mount E w in
  settled run = Rejected e
  ∧ final run = header_sync E w
  ∧ Forall (λ p, is_GetItem p.1 = true) (points run).
Proof.
  intros Hr Hu run.
  rewrite <- (header_sync_storage E w) in Hu.
  destruct (wp_mount E _ _ w (restore_unparsable E (header_sync E w) e Hr Hu))
    as (Hpts & Ho & Hw).
  by split_and!.
Qed.

Lemma startup_unparsable_user_rejects_witness :
  let run := mount Sample.happy Sample.relaunched_corrupt in
  settled run = Rejected {| name := "SyntaxError"; message := "JSON Parse error" |}
  ∧ final run = header_sync Sample.happy Sample.relaunched_corrupt
  ∧ Forall (λ p, is_GetItem p.1 = true) (points run).
Proof.
  apply (startup_unparsable_user_rejects Sample.happy Sample.relaunched_corrupt);
    try reflexivity.
  split; reflexivity.
Defined.

(** X13.  At start-up with a persisted token whose validation call resolves
    with a [login] that is not the persisted user's, nothing is restored and
    nothing is cleaned up: start-up resolves, user and token cells and the
    store are as they were, no removal or write is attempted, and
    [isLoggingIn] ends [false]. *)
Theorem startup_mismatch_keeps_everything E w t u data login :
  reads_succeed E →
  storage w !! KEYS.TOKEN = Some t →
  truthy_string t = true →
  userLogged_of E (storage w !! KEYS.USER) = inr u →
  axios_get E validate_url ("OAuth " +:+ t) = Resolved data →
  get_prop data "login" = Some login →
  strict_eq login (get_prop_opt u "login") = false →
  let run := mount E w in
  settled run = Resolved tt
  ∧ final run = put_isLoggingIn false (header_sync E w)
  ∧ Forall (λ p, is_RemoveItem p.1 = false ∧ is_SetItem p.1 = false) (points run).
Proof.
  intros Hr Htok Ht Hu Hv Hl Hne run.
  rewrite <- (header_sync_storage E w) in Htok, Hu.
  destruct (wp_mount E _ _ w
              (restore_mismatch E (header_sync E w) t u data login Hr Htok Ht Hu Hv Hl Hne))
    as (Hpts & Ho & Hw).
  by split_and!.
Qed.

Lemma startup_mismatch_keeps_everything_witness :
  let run := mount Sample.other_login Sample.relaunched in
  settled run = Resolved tt
  ∧ final run = put_isLoggingIn false (header_sync Sample.other_login Sample.relaunched)
  ∧ Forall (λ p, is_RemoveItem p.1 = false ∧ is_SetItem p.1 = false) (points run).
Proof.
  apply (startup_mismatch_keeps_everything Sample.other_login Sample.relaunched
           "tok123" Sample.alice (Sample.valid "bob") (JStr "bob")); try reflexivity.
  split; reflexivity.
Defined.

(** X14.  A validation call that resolves with a body whose [login] cannot
    be read ([null] or [undefined]) is handled as a failed validation: user
    and token cells end empty, start-up resolves whenever both removals go
    through, and whenever it resolves both persisted entries are gone. *)
Theorem startup_unreadable_validation_clears E w t u data :
  reads_succeed E →
  storage w !! KEYS.TOKEN = Some t →
  truthy_string t = true →
  userLogged_of E (storage w !! KEYS.USER) = inr u →
  axios_get E validate_url ("OAuth " +:+ t) = Resolved data →
  get_prop data "login" = None →
  let run := mount E w in
  user (final run) = empty_object
  ∧ userToken (final run) = ""
  ∧ isLoggingIn (final run) = false
  ∧ (removals_succeed E → settled run = Resolved tt)
  ∧ (settled run = Resolved tt →
     storage (final run) !! KEYS.TOKEN = None
     ∧ storage (final run) !! KEYS.USER = None).
Proof.
  intros Hr Htok Ht Hu Hv Hl run.
  rewrite <- (header_sync_storage E w) in Htok, Hu.
  destruct (wp_mount E _ _ w
              (restore_body_unreadable E (header_sync E w) t u data Hr Htok Ht Hu Hv Hl))
    as (_ & H).
  exact H.
Qed.

Lemma startup_unreadable_validation_clears_witness :
  let run := mount Sample.validation_null Sample.relaunched in
  user (final run) = empty_object
  ∧ userToken (final run) = ""
  ∧ isLoggingIn (final run) = false
  ∧ settled run = Resolved tt
  ∧ storage (final run) !! KEYS.TOKEN = None
  ∧ storage (final run) !! KEYS.USER = None.
Proof.
  destruct (startup_unreadable_validation_clears Sample.validation_null Sample.relaunched
              "tok123" Sample.alice JNull)
    as (Hu & Ht & Hf & Hres & Hst); try reflexivity.
  { split; reflexivity. }
  assert (removals_succeed Sample.validation_null) as Hrm by (split; reflexivity).
  destruct (Hst (Hres Hrm)) as (H1 & H2).
  split; [exact Hu|]. split; [exact Ht|]. split; [exact Hf|].
  split; [exact (Hres Hrm)|]. split; [exact H1|exact H2].
Defined.

(** X15.  Start-up begun with [isLoggingIn] down ends with it down on every
    path, also when a store call or [JSON.parse] throws; it is up at every
    suspension point other than the two initial reads. *)
Theorem startup_flag E w :
  isLoggingIn w = false →
  let run := mount E w in
  Forall (λ p, is_GetItem p.1 = false → isLoggingIn p.2 = true) (points run)
  ∧ isLoggingIn (final run) = false.
Proof.
  intros Hw run. rewrite <- (header_sync_isLoggingIn E w) in Hw.
  destruct (wp_mount E _ _ w (restore_flag E (header_sync E w) Hw)) as [Hpts Hf].
  split; [|exact Hf].
  eapply Forall_impl; [exact Hpts|]. intros [c w'] H. cbn in *. by destruct c.
Qed.

Lemma startup_flag_witness :
  let run := mount Sample.expired_token_entry_refused Sample.relaunched in
  Forall (λ p, is_GetItem p.1 = false → isLoggingIn p.2 = true) (points run)
  ∧ isLoggingIn (final run) = false.
Proof.
  apply (startup_flag Sample.expired_token_entry_refused Sample.relaunched).
  reflexivity.
Defined.

(** X16.  A session restored at start-up reaches the default headers: on
    the path of C2 the [Authorization] header ends carrying the persisted
    token as bearer and [Client-Id] the client id. *)
Theorem startup_restored_headers E w t u data login :
  reads_succeed E →
  storage w !! KEYS.TOKEN = Some t →
  truthy_string t = true →
  userLogged_of E (storage w !! KEYS.USER) = inr u →
  axios_get E validate_url ("OAuth " +:+ t) = Resolved data →
  get_prop data "login" = Some login →
  strict_eq login (get_prop_opt u "login") = true →
  let run := mount E w in
  headers (final run) !! "Authorization" = Some ("Bearer " +:+ t)
  ∧ headers (final run) !! "Client-Id" = Some (CLIENT_ID E).
Proof.
  intros Hr Htok Ht Hu Hv Hl Heq run.
  rewrite <- (header_sync_storage E w) in Htok, Hu.
  assert (userToken (header_sync E w) = t →
          headers (header_sync E w) !! "Authorization" = Some ("Bearer " +:+ t)) as Hauth.
  { rewrite header_sync_userToken. intros <-. by apply header_sync_Authorization. }
  destruct (wp_mount E _ _ w
              (restore_matched_headers E (header_sync E w) t u data login
                 Hr Htok Ht Hu Hv Hl Heq (header_sync_Client_Id E w) Hauth))
    as (_ & H).
  exact H.
Qed.

Lemma startup_restored_headers_witness :
  let run := mount Sample.happy Sample.relaunched in
  headers (final run) !! "Authorization" = Some "Bearer tok123"
  ∧ headers (final run) !! "Client-Id" = Some "cid".
Proof.
  apply (startup_restored_headers Sample.happy Sample.relaunched "tok123"
           Sample.alice (Sample.valid "alice") (JStr "alice")); try reflexivity.
  split; reflexivity.
Defined.

(** X17.  Start-up always leaves the [Client-Id] default header set to the
    client id, on every path; once it is set, [signIn] and [signOut] end
    with it still set, however they settle. *)
Theorem Client_Id_header_stays E w :
  headers (final (mount E w)) !! "Client-Id" = Some (CLIENT_ID E)
  ∧ (headers w !! "Client-Id" = Some (CLIENT_ID E) →
     headers (final (signIn E w)) !! "Client-Id" = Some (CLIENT_ID E)
     ∧ headers (final (signOut E w)) !! "Client-Id" = Some (CLIENT_ID E)).
Proof.
  set (J := λ w' : world, headers w' !! "Client-Id" = Some (CLIENT_ID E)).
  split; [|intros Hw; split].
  - assert (keeps J (restore E)) as H.
    { apply restore_keeps; try done. intros t w'. apply put_userToken_Client_Id. }
    apply (wp_mount E _ _ w (H (header_sync E w) (header_sync_Client_Id E w))).
  - assert (keeps J (signIn E)) as H.
    { apply signIn_keeps; try done.
      - intros v w' Hw'. unfold J. cbn. by rewrite lookup_insert_ne.
      - intros t w'. apply put_userToken_Client_Id. }
    apply (H w Hw).
  - assert (keeps J (signOut E)) as H.
    { apply signOut_keeps; try done.
      - intros w' Hw'. unfold J. cbn. by rewrite lookup_delete_ne.
      - intros w'. apply put_userToken_Client_Id. }
    apply (H w Hw).
Qed.

Lemma Client_Id_header_stays_witness :
  headers (final (mount Sample.happy Sample.signed_in)) !! "Client-Id" = Some "cid"
  ∧ headers (final (signIn Sample.happy Sample.signed_in)) !! "Client-Id" = Some "cid"
  ∧ headers (final (signOut Sample.happy Sample.signed_in)) !! "Client-Id" = Some "cid".
Proof.
  destruct (Client_Id_header_stays Sample.happy Sample.signed_in) as [H1 H2].
  destruct H2 as [H2 H3]; [reflexivity|].
  split; [exact H1|]. split; [exact H2|exact H3].
Defined.

(** X18.  A committed session survives a relaunch.  When [signIn] commits
    (the conditions of C1, the record being any value but [undefined]), the
    serialized user is a non-empty text that parses back to the record, and
    at the next start-up the reads go through and the validation call
    resolves with the record's [login], then start-up over the store
    [signIn] left, with empty memory, ends with the same user and token in
    memory. *)
Theorem session_survives_relaunch E w h r data first vdata login :
  startAsync E (authUrl E) = Resolved r →
  type r = "success" →
  truthy_string (access_token (params r)) = true →
  api_get E "/users" (CLIENT_ID E) ("Bearer " +:+ access_token (params r)) = Resolved data →
  first_record data = Some first →
  JSON_stringify E first = Some (JSON_serialize E first) →
  writes_succeed E (access_token (params r)) first →
  truthy_string (JSON_serialize E first) = true →
  JSON_parse E (JSON_serialize E first) = inr first →
  reads_succeed E →
  axios_get E validate_url ("OAuth " +:+ access_token (params r)) = Resolved vdata →
  get_prop vdata "login" = Some login →
  strict_eq login (get_prop_opt first "login") = true →
  let signed := final (signIn E w) in
  let run := mount E (initial h (storage signed)) in
  settled run = Resolved tt
  ∧ user (final run) = user signed
  ∧ userToken (final run) = userToken signed
  ∧ storage (final run) = storage signed.
Proof.
  intros Hs Ht Htok Hu Hfirst Hstr Hw Htext Hparse Hr Hv Hl Heq signed run.
  unfold first_record in Hfirst.
  destruct (get_prop data "data") as [rows|] eqn:Hrows; [|done].
  assert (first ≠ JUndefined) as Hdef by (intros ->; discriminate Hstr).
  destruct (signIn_committed E w r data rows first Hs Ht Hu Hrows Hfirst Hdef Hw)
    as (_ & _ & Huser & Htoken & Hst1 & Hst2).
  fold signed in Huser, Htoken, Hst1, Hst2.
  assert (userLogged_of E (storage (initial h (storage signed)) !! KEYS.USER) = inr first)
    as Hul.
  { cbn. rewrite Hst2. cbn. by rewrite Htext. }
  destruct (mount_matched E (initial h (storage signed)) (access_token (params r))
              first vdata login Hr Hst1 (truthy_string_nonempty _ Htok) Hul Hv Hl Heq)
    as (_ & Ho & Htoken' & Huser' & _ & Hst').
  fold run in Ho, Htoken', Huser', Hst'.
  rewrite Huser, Htoken. by split_and!.
Qed.

Lemma session_survives_relaunch_witness :
  let signed := final (signIn Sample.happy Sample.signed_out) in
  let run := mount Sample.happy (initial ∅ (storage signed)) in
  settled run = Resolved tt
  ∧ user (final run) = user signed
  ∧ userToken (final run) = userToken signed
  ∧ storage (final run) = storage signed.
Proof.
  apply (session_survives_relaunch Sample.happy Sample.signed_out ∅
           (Sample.response "success" "tok123" "q7XkP2mZr9LbT4vNc8HsWd1YfGu3Ae")
           (Sample.profile [Sample.alice]) Sample.alice
           (Sample.valid "alice") (JStr "alice")); try reflexivity.
  - split; reflexivity.
  - split; reflexivity.
Defined.

(** X19.  After a [signOut] that resolved, a relaunch finds nothing to
    restore: over the store [signOut] left, start-up only reads the two
    entries, calls no endpoint, and ends with user and token cells
    empty. *)
Theorem signOut_then_startup_is_idle E w h :
  settled (signOut E w) = Resolved tt →
  reads_succeed E →
  let run := mount E (initial h (storage (final (signOut E w)))) in
  settled run = Resolved tt
  ∧ user (final run) = empty_object
  ∧ userToken (final run) = ""
  ∧ Forall (λ p, is_GetItem p.1 = true) (points run).
Proof.
  intros Ho Hr run.
  destruct (signOut_teardown E w) as (_ & _ & _ & _ & _ & Hst).
  destruct (Hst Ho) as [H1 H2].
  set (w2 := initial h (storage (final (signOut E w)))) in *.
  assert (token_usable (storage (header_sync E w2) !! KEYS.TOKEN) = false) as Htok.
  { rewrite header_sync_storage. cbn. by rewrite H1. }
  assert (userLogged_of E (storage (header_sync E w2) !! KEYS.USER) = inr JNull) as Hu.
  { rewrite header_sync_storage. cbn. by rewrite H2. }
  destruct (wp_mount E _ _ w2 (restore_idle E (header_sync E w2) JNull Hr Htok Hu))
    as (Hpts & Hres & Hw).
  fold run in Hpts, Hres, Hw. rewrite Hw.
  rewrite header_sync_user, header_sync_userToken. by split_and!.
Qed.

Lemma signOut_then_startup_is_idle_witness :
  let run := mount Sample.happy
               (initial ∅ (storage (final (signOut Sample.happy Sample.signed_in)))) in
  settled run = Resolved tt
  ∧ user (final run) = empty_object
  ∧ userToken (final run) = ""
  ∧ Forall (λ p, is_GetItem p.1 = true) (points run).
Proof.
  apply (signOut_then_startup_is_idle Sample.happy Sample.signed_in ∅).
  - reflexivity.
  - split; reflexivity.
Defined.

(** X20.  [isLoggingIn] is [true] at every suspension point of [signIn] and
    [false] when it settles, on every path: thrown flow, refused access,
    failed profile request, unreadable body, refused write, success. *)
Theorem signIn_flag_every_path E w :
  let run := signIn E w in
  Forall (λ p, isLoggingIn p.2 = true) (points run)
  ∧ isLoggingIn (final run) = false.
Proof. intros run. exact (signIn_flag E w). Qed.

(** X21.  [isLoggingOut] is [true] at every suspension point of [signOut];
    when [signOut] resolves, which it does whenever both removals go
    through, [isLoggingOut] ends [false]. *)
Theorem signOut_flag_when_resolved E w :
  let run := signOut E w in
  Forall (λ p, isLoggingOut p.2 = true) (points run)
  ∧ (removals_succeed E → settled run = Resolved tt)
  ∧ (settled run = Resolved tt → isLoggingOut (final run) = false).
Proof.
  intros run. destruct (signOut_flag E w) as [Hpts Hf].
  destruct (signOut_teardown E w) as (_ & _ & _ & _ & Hres & _).
  fold run in Hpts, Hf, Hres. split_and!; try done.
  intros Ho. by rewrite Ho in Hf.
Qed.

Lemma signOut_flag_when_resolved_witness :
  let run := signOut Sample.revocation_down Sample.signed_in in
  Forall (λ p, isLoggingOut p.2 = true) (points run)
  ∧ settled run = Resolved tt
  ∧ isLoggingOut (final run) = false.
Proof.
  destruct (signOut_flag_when_resolved Sample.revocation_down Sample.signed_in)
    as (Hpts & Hres & Hf).
  assert (removals_succeed Sample.revocation_down) as Hrm by (split; reflexivity).
  split; [exact Hpts|]. split; [exact (Hres Hrm)|exact (Hf (Hres Hrm))].
Defined.
